(** * Dockstore search: query-body construction and result formatting

    A shallow embedding of [DockstoreSearch._build_search_body] and
    [DockstoreSearch.format_results] from
    [src/bioos_mcp/tools/dockstore_search.py], with the properties the
    specification states about them.

    Python dictionaries are finite maps ([gmap string _]), Python lists are
    lists, and an exception raised by the interpreter ([KeyError],
    [AttributeError], [TypeError], [ValueError]) is the outcome [Raise]. *)

From Stdlib Require Import QArith Qabs.
From Stdlib Require Import Sorting.Sorted Sorting.Permutation.
From stdpp Require Import gmap strings list fin_maps pretty.

Set Warnings "-register-all".
Local Open Scope string_scope.
Local Open Scope list_scope.

(** ** Python values and exceptions *)

Module Py.

(** A Python [float] that is finite: the rational it denotes, or the
    negative zero [-0.0], which equals [0.0] and prints with its sign.
    Infinities and NaN, which standard JSON does not have, are left out. *)
Inductive float : Type :=
  | Finite (q : Q)
  | NegZero.

Coercion Finite : Q >-> float.

(** JSON-shaped Python values: [None], [bool], [int], [float], [str],
    [list] and [dict] with string keys. *)
Inductive json : Type :=
  | JNull
  | JBool (b : bool)
  | JInt (z : Z)
  | JFloat (x : float)
  | JStr (s : string)
  | JArr (l : list json)
  | JObj (m : gmap string json).

(** The outcome of running a piece of Python: a value, or an exception. *)
Inductive result (A : Type) : Type :=
  | Ok (a : A)
  | Raise.
Arguments Ok {A} a.
Arguments Raise {A}.

Definition bind {A B} (r : result A) (k : A -> result B) : result B :=
  match r with
  | Ok a => k a
  | Raise => Raise
  end.

Notation "x <~ r ;; k" := (bind r (fun x => k))
  (at level 100, r at next level, right associativity).

(** A [for] loop that threads the mutated object through its body. *)
Fixpoint for_each {A S} (f : S -> A -> result S) (l : list A) (s : S)
  : result S :=
  match l with
  | [] => Ok s
  | x :: l' => s' <~ f s x ;; for_each f l' s'
  end.

(** The same loop collecting one value per iteration (a list
    comprehension, or a loop whose body ends in [append]). *)
Fixpoint collect {A B} (f : A -> result B) (l : list A) : result (list B) :=
  match l with
  | [] => Ok []
  | x :: l' => y <~ f x ;; ys <~ collect f l' ;; Ok (y :: ys)
  end.

(** [bool(v)]. *)
Definition truthy (v : json) : bool :=
  match v with
  | JNull => false
  | JBool b => b
  | JInt z => negb (z =? 0)%Z
  | JFloat (Finite q) => negb (Qeq_bool q 0)
  | JFloat NegZero => false
  | JStr s => negb (String.eqb s "")
  | JArr l => match l with [] => false | _ => true end
  | JObj m => negb (bool_decide (m = ∅))
  end.

(** [a or b]: [a] when it is truthy, else [b]. *)
Definition py_or (a b : json) : json := if truthy a then a else b.

(** [v[k]]: [KeyError] on a missing key, [TypeError] when [v] is not a
    dictionary. *)
Definition getitem (k : string) (v : json) : result json :=
  match v with
  | JObj m => match m !! k with Some x => Ok x | None => Raise end
  | _ => Raise
  end.

(** [v.get(k, d)]: only dictionaries have [get]. *)
Definition get (k : string) (d : json) (v : json) : result json :=
  match v with
  | JObj m => Ok (default d (m !! k))
  | _ => Raise
  end.

(** [v[k1][k2]...]. *)
Fixpoint get_path (path : list string) (v : json) : result json :=
  match path with
  | [] => Ok v
  | k :: rest => x <~ getitem k v ;; get_path rest x
  end.

(** [v[k1][k2]....append(x)]: dictionaries and lists are shared objects, so
    the append is seen through [v]; the update is written back along the
    path. *)
Fixpoint append_at (path : list string) (x : json) (v : json) : result json :=
  match path with
  | [] => match v with
          | JArr l => Ok (JArr (l ++ [x]))
          | _ => Raise
          end
  | k :: rest =>
      match v with
      | JObj m =>
          match m !! k with
          | Some c => c' <~ append_at rest x c ;; Ok (JObj (<[k := c']> m))
          | None => Raise
          end
      | _ => Raise
      end
  end.

(** The one-character strings of a string, as iterating a [str] yields
    them. *)
Definition chars (s : string) : list string :=
  (fun c => String c EmptyString) <$> String.list_ascii_of_string s.

(** [iter(v)]: a list yields its elements, a dictionary its keys, a string
    its characters; nothing else is iterable. *)
Definition iter (v : json) : result (list json) :=
  match v with
  | JArr l => Ok l
  | JObj m => Ok (JStr <$> (map_to_list m).*1)
  | JStr s => Ok (JStr <$> chars s)
  | _ => Raise
  end.

(** [sep.join(xs)] on strings. *)
Fixpoint join (sep : string) (xs : list string) : string :=
  match xs with
  | [] => ""
  | [x] => x
  | x :: rest => x +:+ sep +:+ join sep rest
  end.

(** [sep.join(vs)]: [TypeError] unless every item is a [str]. *)
Definition as_str (v : json) : result string :=
  match v with
  | JStr s => Ok s
  | _ => Raise
  end.

Definition join_values (sep : string) (vs : list json) : result string :=
  ss <~ collect as_str vs ;; Ok (join sep ss).

End Py.
Import Py.

(** ** The query builder *)

Module QueryBuilder.

(** A value of a query clause, [Union[List[str], str]]. *)
Inductive qval : Type :=
  | QList (l : list string)
  | QStr (s : string).

(** Iterating a clause value, as [zip] does. *)
Definition items (v : qval) : list string :=
  match v with
  | QList l => l
  | QStr s => chars s
  end.

Definition term_filter (field : string) (value : json) : json :=
  JObj {[ "term" := JObj {[ field := value ]} ]}.

(** The request document before any condition is added. *)
Definition search_body0 : json :=
  JObj {[
    "size" := JInt 201;
    "_source" := JArr (JStr <$> [
        "all_authors"; "approvedAITopic"; "descriptorType";
        "descriptorTypeSubclass"; "full_workflow_path"; "gitUrl";
        "name"; "namespace"; "organization"; "private_access";
        "providerUrl"; "repository"; "starredUsers"; "toolname";
        "tool_path"; "topicAutomatic"; "topicSelection"; "verified";
        "workflowName"; "description"; "workflowVersions";
        "categories.name"; "categories.displayName";
        "descriptor_type_versions"; "engine_versions";
        "input_file_formats.value"; "output_file_formats.value";
        "archived"; "openData"; "has_checker";
        "verified_platforms"; "execution_partners"; "validation_partners"
      ]);
    "sort" := JArr [
        JObj {[ "archived" := JObj {[ "order" := JStr "asc" ]} ]};
        JObj {[ "_score" := JObj {[ "order" := JStr "desc" ]} ]}
      ];
    "highlight" := JObj {[
        "type" := JStr "unified";
        "pre_tags" := JArr [JStr "<b>"];
        "post_tags" := JArr [JStr "</b>"];
        "fields" := JObj {[
            "full_workflow_path" := JObj ∅;
            "tool_path" := JObj ∅;
            "workflowVersions.sourceFiles.content" := JObj ∅;
            "tags.sourceFiles.content" := JObj ∅;
            "description" := JObj ∅;
            "labels.value" := JObj ∅;
            "all_authors.name" := JObj ∅;
            "topicAutomatic" := JObj ∅;
            "categories.topic" := JObj ∅;
            "categories.displayName" := JObj ∅;
            "categories.name" := JObj ∅;
            "input_file_formats.value" := JObj ∅;
            "output_file_formats.value" := JObj ∅
          ]}
      ]};
    "query" := JObj {[
        "bool" := JObj {[
            "must" := JArr [JObj {[ "match" := JObj {[ "_index" := JStr "workflows" ]} ]}];
            "should" := JArr [];
            "minimum_should_match" := JInt 1;
            "filter" := JArr []
          ]}
      ]}
  ]}.

Definition filter_path : list string := ["query"; "bool"; "filter"].
Definition should_path : list string := ["query"; "bool"; "should"].

(** [field in [...]]. *)
Definition field_in (field : string) (l : list string) : bool :=
  bool_decide (field ∈ l).

(** The weight assigned to a search field (the [if]/[elif] chain). *)
Definition boost_value (field : string) : Q :=
  if field_in field ["full_workflow_path"; "tool_path"] then 14
  else if field_in field ["description"; "workflowName"; "name"] then 10
  else if field_in field ["categories.name"; "categories.displayName"] then 8
  else if field_in field ["all_authors.name"; "organization"] then 6
  else if field_in field ["labels.value"; "input_file_formats.value";
                          "output_file_formats.value"] then 4
  else 2.

(** The condition appended to [should] for one [(term, field)] pair. *)
Definition should_entry (is_sentence : bool) (query_type : string)
    (term field : string) : json :=
  if String.eqb query_type "wildcard" then
    JObj {[ "wildcard" := JObj {[ field := JObj {[
        "value" := JStr ("*" +:+ term +:+ "*");
        "case_insensitive" := JBool true;
        "boost" := JFloat (boost_value field) ]} ]} ]}
  else
    let match_type := if is_sentence then "match_phrase" else "match" in
    JObj {[ match_type := JObj {[ field := JObj {[
        "query" := JStr term;
        "boost" := JFloat (boost_value field) ]} ]} ]}.

(** The [(term, field)] pairs of one clause:
    [zip(query.get("terms", []), query.get("fields", []))]. *)
Definition clause_pairs (query : gmap string qval) : list (string * string) :=
  let terms := default (QList []) (query !! "terms") in
  let fields := default (QList []) (query !! "fields") in
  zip (items terms) (items fields).

(** [descriptor_type] is a string or [None]; [if descriptor_type:] holds for
    a non-empty string. *)
Definition descriptor_set (descriptor_type : option string) : option string :=
  match descriptor_type with
  | Some s => if String.eqb s "" then None else Some s
  | None => None
  end.

Definition _build_search_body
    (queries : list (gmap string qval))
    (is_sentence : bool) (query_type : string)
    (descriptor_type : option string)
    (verified_only include_archived : bool) : result json :=
  let search_body := search_body0 in
  search_body <~
    match descriptor_set descriptor_type with
    | Some dt =>
        append_at filter_path (term_filter "descriptorType" (JStr dt)) search_body
    | None => Ok search_body
    end ;;
  search_body <~
    (if verified_only
     then append_at filter_path (term_filter "verified" (JBool true)) search_body
     else Ok search_body) ;;
  search_body <~
    (if negb include_archived
     then append_at filter_path (term_filter "archived" (JBool false)) search_body
     else Ok search_body) ;;
  for_each
    (fun search_body query =>
       for_each
         (fun search_body '(term, field) =>
            append_at should_path
              (should_entry is_sentence query_type term field) search_body)
         (clause_pairs query) search_body)
    queries search_body.

End QueryBuilder.

(** ** The result formatter *)

Module ResultFormatter.

(** The line feed character, ['\n']. *)
Definition LF : Ascii.ascii :=
  Ascii.Ascii false true false true false false false false.

Definition nl : string := String LF "".

(** [s.split('\n')[0]]. *)
Fixpoint first_line (s : string) : string :=
  match s with
  | EmptyString => ""
  | String c rest =>
      if Ascii.eqb c LF then "" else String c (first_line rest)
  end.

(** The number a score stands for where Python orders or formats it:
    [int], [float] and [bool] are numbers, nothing else is. *)
Definition as_number (v : json) : option Q :=
  match v with
  | JInt z => Some (inject_Z z)
  | JFloat (Finite q) => Some q
  | JFloat NegZero => Some 0%Q
  | JBool b => Some (if b then 1 else 0)%Q
  | _ => None
  end.

(** Rounding a non-negative rational to the nearest integer, ties to
    even. *)
Definition round_half_even (x : Q) : Z :=
  let n := Qnum x in
  let d := Z.pos (Qden x) in
  let fl := (n / d)%Z in
  let r2 := (2 * (n mod d))%Z in
  if (r2 <? d)%Z then fl
  else if (d <? r2)%Z then (fl + 1)%Z
  else if Z.even fl then fl else (fl + 1)%Z.

Definition two_digits (z : Z) : string :=
  if (z <? 10)%Z then "0" +:+ pretty z else pretty z.

(** [f"{x:.2f}"] on a number: sign, integer part, two decimals of the
    value rounded to hundredths. *)
Definition fmt_2f (x : Q) : string :=
  let h := round_half_even (Qabs x * 100) in
  (if Qle_bool 0 x then "" else "-")
    +:+ pretty (h / 100)%Z +:+ "." +:+ two_digits (h mod 100)%Z.

(** The first integer that is too large for a [float]: [float(z)] rounds
    [z] to 53 significant bits, ties to even, and raises [OverflowError]
    when the result reaches it. *)
Definition float_limit : Z := 2 ^ 1024.

(** [float(z)] on an [int]. *)
Definition int_to_float (z : Z) : result Q :=
  let m := Z.abs z in
  let bits := if (m =? 0)%Z then 0%Z else (Z.log2 m + 1)%Z in
  if (bits <=? 53)%Z then Ok (inject_Z z)
  else
    let shift := (bits - 53)%Z in
    let q := Z.shiftr m shift in
    let r := Z.land m (Z.ones shift) in
    let half := Z.shiftl 1 (shift - 1) in
    let q := if (half <? r)%Z || ((r =? half)%Z && Z.odd q)
             then (q + 1)%Z else q in
    let x := Z.shiftl q shift in
    if (float_limit <=? x)%Z then Raise
    else Ok (inject_Z (Z.sgn z * x)).

(** [f"{v:.2f}"]: a [float] is formatted as it is, an [int] or a [bool]
    after its conversion to [float]; any other value raises. *)
Definition format_2f (v : json) : result string :=
  match v with
  | JFloat (Finite q) => Ok (fmt_2f q)
  | JFloat NegZero => Ok "-0.00"
  | JInt z => x <~ int_to_float z ;; Ok (fmt_2f x)
  | JBool b => Ok (fmt_2f (if b then 1 else 0))
  | _ => Raise
  end.

(** One entry of [workflows]. *)
Record workflow_info : Type := {
  name : json;
  path : json;
  desc : json;
  score : json;
  descriptor_type : json;
  categories : list json;
  verified : json;
  authors : list json;
  organization : json;
  input_formats : list json;
  output_formats : list json
}.

(** [[x.get(key, '') for x in source.get(field, [])]]. *)
Definition pluck (field key : string) (source : json) : result (list json) :=
  xs <~ get field (JArr []) source ;;
  xs <~ iter xs ;;
  collect (get key (JStr "")) xs.

(** [desc.split('\n')[0]] when [desc] is truthy: only a [str] has
    [split]. *)
Definition short_desc (desc : json) : result json :=
  if truthy desc then
    match desc with
    | JStr s => Ok (JStr (first_line s))
    | _ => Raise
    end
  else Ok desc.

(** [source.get('workflowName') or source.get('name') or
    source.get('repository') or 'Unnamed Workflow']. *)
Definition resolve_name (source : json) : result json :=
  a <~ get "workflowName" JNull source ;;
  b <~ get "name" JNull source ;;
  c <~ get "repository" JNull source ;;
  Ok (py_or (py_or (py_or a b) c) (JStr "Unnamed Workflow")).

(** The body of the loop over the hits. *)
Definition workflow_of_hit (hit : json) : result workflow_info :=
  source <~ get "_source" (JObj ∅) hit ;;
  score <~ get "_score" (JInt 0) hit ;;
  name <~ resolve_name source ;;
  path <~ get "full_workflow_path" (JStr "") source ;;
  desc <~ get "description" (JStr "") source ;;
  desc <~ short_desc desc ;;
  descriptor_type <~ get "descriptorType" (JStr "") source ;;
  categories <~ pluck "categories" "name" source ;;
  verified <~ get "verified" (JBool false) source ;;
  authors <~ pluck "all_authors" "name" source ;;
  organization <~ get "organization" (JStr "") source ;;
  input_formats <~ pluck "input_file_formats" "value" source ;;
  output_formats <~ pluck "output_file_formats" "value" source ;;
  Ok {| name := name; path := path; desc := desc; score := score;
        descriptor_type := descriptor_type; categories := categories;
        verified := verified; authors := authors;
        organization := organization; input_formats := input_formats;
        output_formats := output_formats |}.

(** Inserting into a list that is in descending key order: the new item
    passes the items with a strictly greater key only, so it stays ahead of
    the items with an equal key that followed it in the input. *)
Fixpoint insert_desc {A} (x : Q * A) (l : list (Q * A)) : list (Q * A) :=
  match l with
  | [] => [x]
  | y :: rest =>
      if Qle_bool y.1 x.1 then x :: y :: rest
      else y :: insert_desc x rest
  end.

(** The stable sort in descending key order, on the decorated list. *)
Fixpoint sort_desc {A} (l : list (Q * A)) : list (Q * A) :=
  match l with
  | [] => []
  | x :: rest => insert_desc x (sort_desc rest)
  end.

Definition sort_key (wf : workflow_info) : result (Q * workflow_info) :=
  match as_number (score wf) with
  | Some k => Ok (k, wf)
  | None => Raise
  end.

(** [workflows.sort(key=lambda x: x['score'], reverse=True)].  Scores that
    are not numbers make the call as a whole raise: either the sort does
    (they do not compare with numbers), or the [.2f] formatting of the first
    entry; the exception is placed here. *)
Definition sort_workflows (workflows : list workflow_info)
  : result (list workflow_info) :=
  keyed <~ collect sort_key workflows ;;
  Ok (sort_desc keyed).*2.

(** What the formatter returns: a single string, or the list of lines. *)
Inductive rendered : Type :=
  | Text (s : string)
  | Lines (l : list string).

Section Rendering.

(** [str(v)] for a value that is not a string ([None], a number, a list, a
    dictionary), as string interpolation prints it.  Its text is left
    open. *)
Variable py_repr : json -> string.

(** [f"{v}"]. *)
Definition py_str (v : json) : string :=
  match v with
  | JStr s => s
  | _ => py_repr v
  end.

(** A line added when [value] is truthy. *)
Definition value_line (label : string) (value : json) (formatted : list string)
  : list string :=
  if truthy value then formatted ++ ["  " +:+ label +:+ py_str value]
  else formatted.

(** A line added when the list [values] is not empty. *)
Definition joined_line (label : string) (values : list json)
    (formatted : list string) : result (list string) :=
  if truthy (JArr values) then
    s <~ join_values ", " values ;;
    Ok (formatted ++ ["  " +:+ label +:+ s])
  else Ok formatted.

(** The [if output_full:] block for one workflow. *)
Definition detail_lines (wf : workflow_info) (formatted : list string)
  : result (list string) :=
  let formatted := value_line "Type: " (descriptor_type wf) formatted in
  formatted <~ joined_line "Categories: " (categories wf) formatted ;;
  formatted <~ joined_line "Authors: " (authors wf) formatted ;;
  let formatted := value_line "Organization: " (organization wf) formatted in
  formatted <~ joined_line "Input formats: " (input_formats wf) formatted ;;
  joined_line "Output formats: " (output_formats wf) formatted.

Definition base_info (wf : workflow_info) : result string :=
  let url := "https://dockstore.org/workflows/" +:+ py_str (path wf) in
  similarity <~ format_2f (score wf) ;;
  let base_info :=
    "- [" +:+ py_str (name wf) +:+ "](" +:+ url +:+ ") (similarity: "
      +:+ similarity +:+ ")" in
  Ok (if truthy (verified wf) then base_info +:+ " ✓" else base_info).

(** The lines one displayed workflow adds to [formatted]. *)
Definition render_entry (output_full : bool) (wf : workflow_info)
  : result (list string) :=
  base_info <~ base_info wf ;;
  let formatted := [base_info] in
  let formatted := value_line "" (desc wf) formatted in
  formatted <~
    (if output_full then detail_lines wf formatted else Ok formatted) ;;
  Ok (formatted ++ [""]).

Definition header (total_results display_count : nat) : string :=
  if decide (5 < total_results) then
    "Found " +:+ pretty total_results +:+ " workflows, showing top "
      +:+ pretty display_count +:+ " by relevance:" +:+ nl
  else
    "Found " +:+ pretty total_results +:+ " workflow(s):" +:+ nl.

(** The list [formatted] when the response has a ["hits"] member. *)
Definition format_lines (hits : json) (output_full : bool)
  : result (list string) :=
  let formatted := ["The following workflows were found in Dockstore:" +:+ nl] in
  hits <~ get "hits" (JArr []) hits ;;
  hits <~ iter hits ;;
  workflows <~ collect workflow_of_hit hits ;;
  workflows <~ sort_workflows workflows ;;
  let total_results := length workflows in
  let display_count := total_results `min` 5 in
  let formatted := formatted ++ [header total_results display_count] in
  entries <~ collect (render_entry output_full) (take display_count workflows) ;;
  Ok (formatted ++ concat entries).

(** [results] is the parsed response, or [None]. *)
Definition format_results (results : option (gmap string json))
    (output_full : bool) : result rendered :=
  match results with
  | None => Ok (Text "No matching workflows found")
  | Some r =>
      if negb (truthy (JObj r)) then Ok (Text "No matching workflows found")
      else
        match r !! "hits" with
        | None => Ok (Text "No matching workflows found")
        | Some hits =>
            formatted <~ format_lines hits output_full ;;
            if output_full then Ok (Lines formatted)
            else Ok (Text (join nl formatted))
        end
  end.

End Rendering.

End ResultFormatter.

(** ** The search call and the command line *)

Module Client.
Import QueryBuilder ResultFormatter.

(** What [client.post(...)] comes to: a response with its status code and
    what [response.json()] gives on it (a dictionary, or an exception when
    the body does not parse), or an exception of the transport. *)
Inductive post_outcome : Type :=
  | Response (status_code : Z) (json : result (gmap string json))
  | TimeoutException
  | OtherException.

(** The parsed command line: [-q TERM FIELD OPERATOR] (repeatable, [None]
    when never given), [--type], [--sentence], [--outputfull],
    [--descriptor-type], [--verified-only], [--include-archived]. *)
Record arguments : Type := {
  query : option (list (string * string * string));
  type : string;
  sentence : bool;
  outputfull : bool;
  arg_descriptor_type : option string;
  arg_verified_only : bool;
  arg_include_archived : bool
}.

(** What [main] does last: the usage line, the "not found" line, the
    formatted results printed and the raw response written to
    [dockstore_results.json], or the error line of its [except]. *)
Inductive main_outcome : Type :=
  | Usage
  | NotFound
  | Shown (printed : rendered) (saved : option (gmap string json))
  | Failed.

Section Gateway.

(** The HTTP POST of a request body to the search URL. *)
Variable post : json -> post_outcome.

(** [str.upper]. *)
Variable upper : string -> string.

Variable py_repr : json -> string.

Definition search
    (queries : list (gmap string qval))
    (is_sentence : bool) (query_type : string)
    (descriptor_type : option string)
    (verified_only include_archived : bool) : option (gmap string json) :=
  match _build_search_body queries is_sentence query_type descriptor_type
          verified_only include_archived with
  | Ok search_body =>
      match post search_body with
      | Response status_code json =>
          if negb (status_code =? 200)%Z then None
          else
            match json with
            | Ok response => Some response
            | Raise => None
            end
      | TimeoutException =>
          Some {[ "error" := JStr "Request timed out after 30 seconds" ]}
      | OtherException => None
      end
  | Raise => None
  end.

(** The clause list [main] builds from the [-q] options: one clause per
    option, none when [args.query] is [None] or empty. *)
Definition cli_queries (args : arguments) : list (gmap string qval) :=
  match query args with
  | Some qs =>
      (fun '(term, field, operator) =>
         ({[ "terms" := QList [term];
             "fields" := QList [field];
             "operator" := QStr (upper operator);
             "query_type" := QStr (type args) ]} : gmap string qval))
        <$> qs
  | None => []
  end.

(** [not results or "hits" not in results or
    not results["hits"].get("hits")]. *)
Definition nothing_found (results : option (gmap string json)) : result bool :=
  match results with
  | None => Ok true
  | Some r =>
      if negb (truthy (JObj r)) then Ok true
      else
        match r !! "hits" with
        | None => Ok true
        | Some hits =>
            hits <~ get "hits" JNull hits ;;
            Ok (negb (truthy hits))
        end
  end.

Definition main (args : arguments) : main_outcome :=
  let queries := cli_queries args in
  match queries with
  | [] => Usage
  | _ :: _ =>
      let results :=
        search queries (sentence args) (type args) (arg_descriptor_type args)
          (arg_verified_only args) (arg_include_archived args) in
      match nothing_found results with
      | Ok true => NotFound
      | Ok false =>
          match format_results py_repr results (outputfull args) with
          | Ok printed => Shown printed results
          | Raise => Failed
          end
      | Raise => Failed
      end
  end.

End Gateway.

End Client.

(** ** The specification's own tables *)

Module Spec.

(** The field-weight table: rules tried top to bottom, the first rule whose
    field set holds the field gives the boost, and a field in no rule gets
    the lowest tier. *)
Definition weight_table : list (list string * Q) :=
  [ (["full_workflow_path"; "tool_path"], 14%Q);
    (["description"; "workflowName"; "name"], 10%Q);
    (["categories.name"; "categories.displayName"], 8%Q);
    (["all_authors.name"; "organization"], 6%Q);
    (["labels.value"; "input_file_formats.value";
      "output_file_formats.value"], 4%Q) ].

Fixpoint table_boost (rules : list (list string * Q)) (field : string) : Q :=
  match rules with
  | [] => 2%Q
  | (fields, boost) :: rest =>
      if bool_decide (field ∈ fields) then boost else table_boost rest field
  end.

(** The two match modes, and the string each is passed as. *)
Inductive match_mode : Type := PHRASE | WILDCARD.

Definition mode_name (mode : match_mode) : string :=
  match mode with
  | PHRASE => "match_phrase"
  | WILDCARD => "wildcard"
  end.

(** A case-insensitive wildcard condition on [field] matching [*term*]. *)
Definition wildcard_condition (field term : string) (boost : Q) : json :=
  JObj {[ "wildcard" := JObj {[ field := JObj {[
      "value" := JStr ("*" +:+ term +:+ "*");
      "case_insensitive" := JBool true;
      "boost" := JFloat boost ]} ]} ]}.

(** A match condition of the given kind ([match_phrase] or [match]). *)
Definition match_condition (kind field term : string) (boost : Q) : json :=
  JObj {[ kind := JObj {[ field := JObj {[
      "query" := JStr term;
      "boost" := JFloat boost ]} ]} ]}.

(** The query fragment for one pair, by mode and sentence flag. *)
Definition fragment (mode : match_mode) (treat_as_sentence : bool)
    (term field : string) : json :=
  match mode, treat_as_sentence with
  | WILDCARD, _ => wildcard_condition field term (table_boost weight_table field)
  | PHRASE, true =>
      match_condition "match_phrase" field term (table_boost weight_table field)
  | PHRASE, false =>
      match_condition "match" field term (table_boost weight_table field)
  end.

(** The name-resolution chain over the source fields of a hit: a field
    counts when it is there and not empty. *)
Definition present (source : gmap string json) (key : string) : option json :=
  match source !! key with
  | Some v => if truthy v then Some v else None
  | None => None
  end.

Definition fallback_name (source : gmap string json) : json :=
  match present source "workflowName" with
  | Some v => v
  | None =>
      match present source "name" with
      | Some v => v
      | None =>
          match present source "repository" with
          | Some v => v
          | None => JStr "Unnamed Workflow"
          end
      end
  end.

End Spec.

(** ** What the theorems observe *)

Module Observe.
Import QueryBuilder ResultFormatter.

(** The request document with given [filter] and [should] lists. *)
Definition body_with (filter should : list json) : json :=
  match search_body0 with
  | JObj m =>
      JObj (<["query" := JObj {[ "bool" := JObj {[
          "must" := JArr [JObj {[ "match" := JObj {[ "_index" := JStr "workflows" ]} ]}];
          "should" := JArr should;
          "minimum_should_match" := JInt 1;
          "filter" := JArr filter ]} ]} ]> m)
  | v => v
  end.

(** All [(term, field)] pairs, clause after clause. *)
Definition all_pairs (queries : list (gmap string qval)) : list (string * string) :=
  concat (clause_pairs <$> queries).

(** The filter conditions the options select, in the order they are added. *)
Definition selected_filters (descriptor_type : option string)
    (verified_only include_archived : bool) : list json :=
  match descriptor_set descriptor_type with
  | Some dt => [term_filter "descriptorType" (JStr dt)]
  | None => []
  end
  ++ (if verified_only then [term_filter "verified" (JBool true)] else [])
  ++ (if include_archived then [] else [term_filter "archived" (JBool false)]).

(** What a filter condition requires of the [archived] field, if
    anything. *)
Definition archived_condition (entry : json) : result json :=
  get_path ["term"; "archived"] entry.

(** The terms and the fields of a clause, as the loop reads them. *)
Definition clause_terms (query : gmap string qval) : list string :=
  items (default (QList []) (query !! "terms")).

Definition clause_fields (query : gmap string qval) : list string :=
  items (default (QList []) (query !! "fields")).

(** The hits of a response: the items of [results["hits"]["hits"]], and
    none when the response has no ["hits"] member. *)
Definition response_hits (results : option (gmap string json)) : list json :=
  match results with
  | Some r =>
      match r !! "hits" with
      | Some hits =>
          match (hits <~ get "hits" (JArr []) hits ;; iter hits) with
          | Ok hs => hs
          | Raise => []
          end
      | None => []
      end
  | None => []
  end.

(** [s.startswith(p)]. *)
Fixpoint starts_with (p s : string) : bool :=
  match p with
  | EmptyString => true
  | String a p' =>
      match s with
      | EmptyString => false
      | String b s' => Ascii.eqb a b && starts_with p' s'
      end
  end.

(** The lines of the output that open an entry. *)
Definition entry_lines (lines : list string) : list string :=
  List.filter (starts_with "- [") lines.

(** Whether a line with the given label is among [lines]. *)
Definition has_label (label : string) (lines : list string) : bool :=
  existsb (starts_with ("  " +:+ label)) lines.

Definition nonempty {A} (l : list A) : bool :=
  match l with
  | [] => false
  | _ => true
  end.

(** The line list [[x]] when [b] holds, and no line otherwise. *)
Definition line_if (b : bool) (x : string) : list string :=
  if b then [x] else [].

(** [a] scores at least as high as [b]. *)
Definition score_ge (a b : workflow_info) : Prop :=
  exists x y,
    as_number (score a) = Some x /\ as_number (score b) = Some y
    /\ (y <= x)%Q.

Definition key_ge {A} (a b : Q * A) : Prop := (b.1 <= a.1)%Q.

(** The output is the given lines: as they are, or joined by line feeds. *)
Definition renders (out : rendered) (lines : list string) : Prop :=
  out = Lines lines \/ out = Text (join nl lines).

(** The number of the given conditions that hold. *)
Definition count_true (bs : list bool) : nat := length (List.filter id bs).

(** The full-detail lines of a workflow: none in summary mode. *)
Definition detail_part (py_repr : json -> string) (full : bool)
    (wf : workflow_info) (ds : list string) : Prop :=
  if full then
    exists c a i o,
      ds = line_if (truthy (descriptor_type wf))
             ("  Type: " +:+ py_str py_repr (descriptor_type wf))
        ++ line_if (nonempty (categories wf)) ("  Categories: " +:+ c)
        ++ line_if (nonempty (authors wf)) ("  Authors: " +:+ a)
        ++ line_if (truthy (organization wf))
             ("  Organization: " +:+ py_str py_repr (organization wf))
        ++ line_if (nonempty (input_formats wf)) ("  Input formats: " +:+ i)
        ++ line_if (nonempty (output_formats wf)) ("  Output formats: " +:+ o)
  else ds = [].

(** Responses of the shape the remote index sends: every hit is an object
    with a score that is a number within the range of [float] (or no
    score) and a source object (or none) whose description is a string, and
    whose categories, authors and formats are lists of objects naming a
    string. *)
Definition is_str (v : json) : bool :=
  match v with
  | JStr _ => true
  | _ => false
  end.

Definition named_item (key : string) (item : json) : bool :=
  match item with
  | JObj d => is_str (default (JStr "") (d !! key))
  | _ => false
  end.

Definition named_items (key : string) (v : json) : bool :=
  match v with
  | JArr l => forallb (named_item key) l
  | _ => false
  end.

Definition plain_source (source : json) : bool :=
  match source with
  | JObj m =>
      is_str (default (JStr "") (m !! "description"))
      && named_items "name" (default (JArr []) (m !! "categories"))
      && named_items "name" (default (JArr []) (m !! "all_authors"))
      && named_items "value" (default (JArr []) (m !! "input_file_formats"))
      && named_items "value" (default (JArr []) (m !! "output_file_formats"))
  | _ => false
  end.

Definition is_number (v : json) : bool :=
  match as_number v with
  | Some _ => true
  | None => false
  end.

(** Whether [f"{v:.2f}"] returns. *)
Definition formats_2f (v : json) : bool :=
  match format_2f v with
  | Ok _ => true
  | Raise => false
  end.

Definition plain_hit (hit : json) : bool :=
  match hit with
  | JObj h =>
      plain_source (default (JObj ∅) (h !! "_source"))
      && formats_2f (default (JInt 0) (h !! "_score"))
  | _ => false
  end.

(** A workflow whose entry can be rendered in either mode. *)
Definition renderable (wf : workflow_info) : bool :=
  formats_2f (score wf)
  && forallb is_str (categories wf) && forallb is_str (authors wf)
  && forallb is_str (input_formats wf) && forallb is_str (output_formats wf).

(** An interpolation of non-string values for examples in which every
    interpolated value is a string. *)
Definition no_repr : json -> string := fun _ => "".

(** The response of the remote index when nothing matches. *)
Definition empty_response : gmap string json :=
  {[ "hits" := JObj {[ "hits" := JArr [] ]} ]}.

(** A response that carries the timeout error and no hits. *)
Definition timeout_response : gmap string json :=
  {[ "error" := JStr "Request timed out after 30 seconds" ]}.

(** A hit that has a repository identifier, a path and a score, and
    neither a display name nor a canonical name. *)
Definition sample_hit (repository : string) (score : Q) : json :=
  JObj {[ "_score" := JFloat score;
          "_source" := JObj {[
              "repository" := JStr repository;
              "full_workflow_path" := JStr ("github.com/" +:+ repository) ]} ]}.

(** Seven hits in ascending order of score. *)
Definition ascending_response : gmap string json :=
  {[ "hits" := JObj {[ "hits" := JArr [
       sample_hit "a" (1 # 10); sample_hit "b" (3 # 10);
       sample_hit "c" (5 # 10); sample_hit "d" (5 # 10);
       sample_hit "e" (8 # 10); sample_hit "f" (9 # 10);
       sample_hit "g" (9 # 10) ] ]} ]}.

(** A workflow with a type, a category, an organization and an output
    format, and no author and no input format. *)
Definition detailed_workflow : workflow_info :=
  {| name := JStr "Mutect2";
     path := JStr "github.com/broadinstitute/gatk/Mutect2";
     desc := JStr "Somatic variant calling";
     score := JFloat (Finite (9 # 10));
     descriptor_type := JStr "WDL";
     categories := [JStr "Genomics"];
     verified := JBool true;
     authors := [];
     organization := JStr "broadinstitute";
     input_formats := [];
     output_formats := [JStr "VCF"] |}.

End Observe.

(** ** Further observations and examples *)

Module ObserveMore.
Import QueryBuilder ResultFormatter Client Observe.

(** Whether the option [descriptor_type] selects a filter. *)
Definition descriptor_given (descriptor_type : option string) : bool :=
  match descriptor_set descriptor_type with
  | Some _ => true
  | None => false
  end.

(** A clause with the operator AND and the same clause with the operator
    OR. *)
Definition and_clause : gmap string qval :=
  {[ "terms" := QList ["RNA-seq"]; "fields" := QList ["description"];
     "operator" := QStr "AND" ]}.

Definition or_clause : gmap string qval :=
  {[ "terms" := QList ["RNA-seq"]; "fields" := QList ["description"];
     "operator" := QStr "OR" ]}.


(** Whether the response is there and has a ["hits"] member. *)
Definition has_hits_member (results : option (gmap string json)) : bool :=
  match results with
  | Some r => bool_decide (is_Some (r !! "hits"))
  | None => false
  end.

Definition is_obj (v : json) : bool :=
  match v with
  | JObj _ => true
  | _ => false
  end.

(** A hit whose description has two lines. *)
Definition two_paragraph_hit : json :=
  JObj {[ "_source" := JObj {[
      "description" := JStr ("Calls variants." +:+ nl
                             +:+ "Second paragraph.") ]} ]}.


(** A response with a hit whose score is the integer 10^400. *)
Definition huge_score_hit : gmap string json :=
  {[ "_score" := JInt (10 ^ 400) ]}.

Definition huge_score_hits : gmap string json :=
  {[ "hits" := JArr [sample_hit "a" (1 # 2); JObj huge_score_hit] ]}.

Definition huge_score_response : gmap string json :=
  {[ "hits" := JObj huge_score_hits ]}.

(** A response with one hit that has a score and one whose score is
    [None]. *)
Definition null_score_hit : gmap string json := {[ "_score" := JNull ]}.

Definition null_score_hits : gmap string json :=
  {[ "hits" := JArr [sample_hit "a" (1 # 2); JObj null_score_hit] ]}.

Definition null_score_response : gmap string json :=
  {[ "hits" := JObj null_score_hits ]}.

(** The header line for [n] hits. *)
Definition found_line (n : nat) : string :=
  if decide (n <= 5) then "Found " +:+ pretty n +:+ " workflow(s):" +:+ nl
  else "Found " +:+ pretty n
         +:+ " workflows, showing top 5 by relevance:" +:+ nl.

(** Gateways for the examples: one that always times out, and one that
    always answers 200 with the given response. *)
Definition timing_out : json -> post_outcome := fun _ => TimeoutException.

Definition answering (response : gmap string json) : json -> post_outcome :=
  fun _ => Response 200 (Ok response).

(** The command line [-q RNA-seq description and]. *)
Definition one_query : arguments :=
  {| query := Some [("RNA-seq", "description", "and")];
     type := "match_phrase"; sentence := false; outputfull := false;
     arg_descriptor_type := None; arg_verified_only := false;
     arg_include_archived := false |}.

End ObserveMore.

(** ** Facts about the Python operations *)

Module PyFacts.

Lemma bind_Ok {A B} (r : result A) (k : A -> result B) (b : B) :
  bind r k = Ok b <-> exists a, r = Ok a /\ k a = Ok b.
Proof.
  destruct r as [a|]; simpl; split.
  - intros H. exists a. split; [reflexivity | exact H].
  - intros (a' & Ha & Hk). injection Ha as ->. exact Hk.
  - discriminate.
  - intros (a' & Ha & _). discriminate.
Qed.

Lemma for_each_ext {A S} (f g : S -> A -> result S) l s :
  (forall s x, f s x = g s x) -> for_each f l s = for_each g l s.
Proof.
  intros Hfg. revert s. induction l as [|x l IH]; intros s; cbn [for_each].
  - reflexivity.
  - rewrite Hfg. destruct (g s x); cbn [bind]; [apply IH | reflexivity].
Qed.

Lemma collect_Forall2 {A B} (f : A -> result B) l ys :
  collect f l = Ok ys <-> Forall2 (fun x y => f x = Ok y) l ys.
Proof.
  revert ys. induction l as [|x l IH]; intros ys; cbn [collect].
  - split.
    + intros [= <-]. constructor.
    + intros H. inversion H. reflexivity.
  - split.
    + intros H. apply bind_Ok in H as (y & Hy & H).
      apply bind_Ok in H as (ys' & Hys & [= <-]).
      constructor; [exact Hy | by apply IH].
    + intros H. inversion H as [|? y ? ys' Hy Hys]; subst.
      rewrite Hy. cbn [bind]. apply IH in Hys. rewrite Hys. reflexivity.
Qed.

Lemma collect_length {A B} (f : A -> result B) l ys :
  collect f l = Ok ys -> length ys = length l.
Proof.
  intros H. apply collect_Forall2 in H.
  symmetry. eapply Forall2_length, H.
Qed.

Lemma string_app_assoc (a b c : string) : (a +:+ b) +:+ c = a +:+ b +:+ c.
Proof.
  induction a as [|x a IH]; [reflexivity|].
  change (String x ((a +:+ b) +:+ c) = String x (a +:+ b +:+ c)).
  by rewrite IH.
Qed.

End PyFacts.

(** ** Properties of the query builder *)

Module QueryBuilderFacts.
Import QueryBuilder Spec Observe PyFacts.

Lemma search_body0_eq : search_body0 = body_with [] [].
Proof. vm_compute. reflexivity. Qed.

Lemma append_should f s x :
  append_at should_path x (body_with f s) = Ok (body_with f (s ++ [x])).
Proof. vm_compute. reflexivity. Qed.

Lemma append_filter f s x :
  append_at filter_path x (body_with f s) = Ok (body_with (f ++ [x]) s).
Proof. vm_compute. reflexivity. Qed.

Lemma should_of_body f s : get_path should_path (body_with f s) = Ok (JArr s).
Proof. reflexivity. Qed.

Lemma filter_of_body f s : get_path filter_path (body_with f s) = Ok (JArr f).
Proof. reflexivity. Qed.

Lemma minimum_of_body f s :
  get_path ["query"; "bool"; "minimum_should_match"] (body_with f s)
  = Ok (JInt 1).
Proof. reflexivity. Qed.

(** The inner loop appends one entry per pair, in order. *)
Lemma inner_loop (g : string * string -> json) pairs f s :
  for_each (fun body p => append_at should_path (g p) body) pairs (body_with f s)
  = Ok (body_with f (s ++ (g <$> pairs))).
Proof.
  revert s. induction pairs as [|p pairs IH]; intros s; cbn [for_each fmap list_fmap].
  - by rewrite app_nil_r.
  - rewrite append_should. cbn [bind]. rewrite IH. by rewrite <- app_assoc.
Qed.

(** The outer loop does so for every clause. *)
Lemma outer_loop (g : string * string -> json) queries f s :
  for_each
    (fun body query =>
       for_each (fun body p => append_at should_path (g p) body)
         (clause_pairs query) body)
    queries (body_with f s)
  = Ok (body_with f (s ++ (g <$> all_pairs queries))).
Proof.
  revert s. induction queries as [|q queries IH]; intros s; cbn [for_each].
  - by rewrite app_nil_r.
  - rewrite inner_loop. cbn [bind]. rewrite IH. unfold all_pairs.
    cbn [fmap list_fmap concat]. by rewrite fmap_app, app_assoc.
Qed.

(** The builder never raises, and its result is the fixed document with the
    selected filters and one entry per pair. *)
Lemma build_body queries is_sentence query_type descriptor_type
    verified_only include_archived :
  _build_search_body queries is_sentence query_type descriptor_type
    verified_only include_archived
  = Ok (body_with
          (selected_filters descriptor_type verified_only include_archived)
          ((fun p => should_entry is_sentence query_type p.1 p.2)
             <$> all_pairs queries)).
Proof.
  unfold _build_search_body, selected_filters.
  rewrite search_body0_eq.
  set (g := fun p : string * string => should_entry is_sentence query_type p.1 p.2).
  assert (Hloop : forall f,
    for_each
      (fun search_body query =>
         for_each
           (fun search_body '(term, field) =>
              append_at should_path
                (should_entry is_sentence query_type term field) search_body)
           (clause_pairs query) search_body)
      queries (body_with f []) = Ok (body_with f (g <$> all_pairs queries))).
  { intros f. rewrite <- (app_nil_l (g <$> all_pairs queries)).
    rewrite <- (outer_loop g queries f []).
    apply for_each_ext. intros body query.
    apply for_each_ext. intros body' [term field]. reflexivity. }
  destruct (descriptor_set descriptor_type) as [dt|];
    destruct verified_only; destruct include_archived;
    cbn [negb bind app]; rewrite ?append_filter; cbn [bind app];
    rewrite ?append_filter; cbn [bind app];
    rewrite ?append_filter; cbn [bind app]; apply Hloop.
Qed.

(** The code's [if]/[elif] chain is the specification's table. *)
Lemma boost_value_table field :
  boost_value field = table_boost weight_table field.
Proof. reflexivity. Qed.

Lemma entry_boost is_sentence query_type term field :
  exists kind,
    get_path [kind; field; "boost"]
      (should_entry is_sentence query_type term field)
    = Ok (JFloat (boost_value field)).
Proof.
  unfold should_entry.
  destruct (String.eqb query_type "wildcard");
    [exists "wildcard" | destruct is_sentence;
                         [exists "match_phrase" | exists "match"]];
    do 3 (cbn [get_path getitem bind]; rewrite ?lookup_singleton_eq);
    reflexivity.
Qed.

Lemma should_entry_fragment mode treat_as_sentence term field :
  should_entry treat_as_sentence (mode_name mode) term field
  = fragment mode treat_as_sentence term field.
Proof. destruct mode, treat_as_sentence; reflexivity. Qed.


(** C1: for every clause and every (term, field) pair of it, the entry
    added to [should] carries the boost the field-weight table gives the
    field: 14 for the path identifiers, 10 for description and names, 8 for
    the category fields, 6 for author and organization, 4 for label and
    format values, 2 for any other field. *)
Theorem C1_boost_follows_weight_table
    queries is_sentence query_type descriptor_type
    verified_only include_archived :
  exists body should,
    _build_search_body queries is_sentence query_type descriptor_type
      verified_only include_archived = Ok body
    /\ get_path should_path body = Ok (JArr should)
    /\ Forall2
         (fun p entry =>
            exists kind,
              get_path [kind; p.2; "boost"] entry
              = Ok (JFloat (table_boost weight_table p.2)))
         (all_pairs queries) should.
Proof.
  eexists _, _. split; [apply build_body|]. split; [apply should_of_body|].
  induction (all_pairs queries) as [|[term field] pairs IH];
    cbn [fmap list_fmap]; constructor; [|exact IH].
  rewrite <- boost_value_table. apply entry_boost.
Qed.


(** C3: the [filter] list contains the condition archived = false exactly
    when [include_archived] is false; when it is true no condition on
    [archived] is in the list. *)
Theorem C3_archived_filter
    queries is_sentence query_type descriptor_type
    verified_only include_archived :
  exists body filter,
    _build_search_body queries is_sentence query_type descriptor_type
      verified_only include_archived = Ok body
    /\ get_path filter_path body = Ok (JArr filter)
    /\ (term_filter "archived" (JBool false) ∈ filter
        <-> include_archived = false)
    /\ (if include_archived
        then Forall (fun entry => archived_condition entry = Raise) filter
        else Exists (fun entry => archived_condition entry = Ok (JBool false))
               filter).
Proof.
  eexists _, _. split; [apply build_body|]. split; [apply filter_of_body|].
  assert (Hother : forall entry,
    entry ∈ selected_filters descriptor_type verified_only true ->
    archived_condition entry = Raise).
  { intros entry. unfold selected_filters.
    destruct (descriptor_set descriptor_type), verified_only;
      cbn [app]; rewrite ?elem_of_cons, elem_of_nil;
      intros H; repeat destruct H as [H|H]; try contradiction;
      subst entry; vm_compute; reflexivity. }
  destruct include_archived.
  - split.
    + split; [|discriminate]. intros Hin. apply Hother in Hin.
      vm_compute in Hin. discriminate.
    + apply Forall_forall. exact Hother.
  - assert (Hin : term_filter "archived" (JBool false)
                    ∈ selected_filters descriptor_type verified_only false).
    { unfold selected_filters. rewrite !elem_of_app. right. right.
      apply list_elem_of_singleton. reflexivity. }
    split; [split; [reflexivity | intros _; exact Hin]|].
    apply Exists_exists. eexists. split; [exact Hin|]. reflexivity.
Qed.

(** C4: the kind of condition added for a pair is decided by the match
    mode and the sentence flag alone: wildcard mode gives a case-insensitive
    wildcard condition on the field with value [*term*]; phrase mode gives a
    [match_phrase] condition when the terms are a sentence and a [match]
    condition otherwise; each carries the field's boost. *)
Theorem C4_match_type_by_mode
    queries mode treat_as_sentence descriptor_type
    verified_only include_archived :
  exists body,
    _build_search_body queries treat_as_sentence (mode_name mode)
      descriptor_type verified_only include_archived = Ok body
    /\ get_path should_path body
       = Ok (JArr ((fun p => fragment mode treat_as_sentence p.1 p.2)
                     <$> all_pairs queries)).
Proof.
  eexists. split; [apply build_body|]. rewrite should_of_body.
  do 2 f_equal. apply list_fmap_ext. intros _ [term field] _.
  apply should_entry_fragment.
Qed.

(** C10: a clause adds exactly min(number of terms, number of fields)
    entries to [should], the surplus terms or fields being ignored; a clause
    with no fields adds none. *)
Theorem C10_clause_emits_min_of_lengths
    queries is_sentence query_type descriptor_type
    verified_only include_archived :
  exists body chunks,
    _build_search_body queries is_sentence query_type descriptor_type
      verified_only include_archived = Ok body
    /\ get_path should_path body = Ok (JArr (concat chunks))
    /\ Forall2
         (fun query chunk =>
            length chunk
            = length (clause_terms query) `min` length (clause_fields query)
            /\ chunk = (fun p => should_entry is_sentence query_type p.1 p.2)
                         <$> zip (clause_terms query) (clause_fields query)
            /\ (if clause_fields query is [] then chunk = [] else True))
         queries chunks.
Proof.
  exists (body_with
            (selected_filters descriptor_type verified_only include_archived)
            ((fun p => should_entry is_sentence query_type p.1 p.2)
               <$> all_pairs queries)).
  exists ((fun query => (fun p => should_entry is_sentence query_type p.1 p.2)
                          <$> clause_pairs query) <$> queries).
  split; [apply build_body|]. split.
  - rewrite should_of_body. do 2 f_equal. unfold all_pairs.
    induction queries as [|q queries IH]; cbn [fmap list_fmap concat].
    + reflexivity.
    + rewrite fmap_app. f_equal. exact IH.
  - induction queries as [|q queries IH]; cbn [fmap list_fmap];
      constructor; [|exact IH].
    unfold clause_pairs, clause_terms, clause_fields.
    split; [by rewrite length_fmap, length_zip_with|].
    split; [reflexivity|].
    destruct (items (default (QList []) (q !! "fields"))) eqn:Hf; [|exact I].
    by rewrite zip_with_nil_r.
Qed.

End QueryBuilderFacts.

(** ** Properties of the result formatter *)

Module ResultFormatterFacts.
Import ResultFormatter Spec Observe PyFacts.

(** *** The sort *)

Lemma insert_desc_perm {A} (x : Q * A) l : insert_desc x l ≡ₚ x :: l.
Proof.
  induction l as [|y l IH]; cbn [insert_desc]; [reflexivity|].
  destruct (Qle_bool y.1 x.1); [reflexivity|].
  rewrite IH. apply Permutation_swap.
Qed.

Lemma sort_desc_perm {A} (l : list (Q * A)) : sort_desc l ≡ₚ l.
Proof.
  induction l as [|x l IH]; cbn [sort_desc]; [reflexivity|].
  rewrite insert_desc_perm. by rewrite IH.
Qed.

Lemma insert_desc_sorted {A} (x : Q * A) l :
  StronglySorted key_ge l -> StronglySorted key_ge (insert_desc x l).
Proof.
  induction l as [|y l IH]; intros Hl; cbn [insert_desc].
  - repeat constructor.
  - inversion Hl as [|? ? Hl' Hy]; subst.
    destruct (Qle_bool y.1 x.1) eqn:Hle.
    + apply Qle_bool_iff in Hle. constructor; [exact Hl|].
      constructor; [exact Hle|].
      eapply Forall_impl; [exact Hy|].
      intros z Hz. unfold key_ge in *. by eapply Qle_trans.
    + constructor; [by apply IH|].
      rewrite insert_desc_perm. constructor; [|exact Hy].
      unfold key_ge.
      destruct (Qlt_le_dec y.1 x.1) as [Hlt|Hge]; [|exact Hge].
      apply Qlt_le_weak in Hlt. apply Qle_bool_iff in Hlt. congruence.
Qed.

Lemma sort_desc_sorted {A} (l : list (Q * A)) :
  StronglySorted key_ge (sort_desc l).
Proof.
  induction l as [|x l IH]; cbn [sort_desc]; [constructor|].
  by apply insert_desc_sorted.
Qed.

Lemma StronglySorted_fmap {A B} (f : A -> B) (R : A -> A -> Prop)
    (R' : B -> B -> Prop) l :
  (forall a b, a ∈ l -> b ∈ l -> R a b -> R' (f a) (f b)) ->
  StronglySorted R l -> StronglySorted R' (f <$> l).
Proof.
  intros Himp Hs. induction Hs as [|a l Hs IH Ha]; cbn [fmap list_fmap].
  - constructor.
  - constructor.
    + apply IH. intros x y Hx Hy. apply Himp; by apply elem_of_cons; right.
    + apply Forall_fmap. apply Forall_forall. intros b Hb.
      rewrite Forall_forall in Ha. cbn.
      apply Himp; [apply elem_of_cons; by left
                  | apply elem_of_cons; by right | by apply Ha].
Qed.

(** A successful sort returns the workflows reordered, highest score
    first. *)
Lemma sort_workflows_spec workflows sorted :
  sort_workflows workflows = Ok sorted ->
  sorted ≡ₚ workflows /\ StronglySorted score_ge sorted.
Proof.
  unfold sort_workflows. intros H.
  apply bind_Ok in H as (keyed & Hk & [= <-]).
  apply collect_Forall2 in Hk.
  assert (Hsnd : keyed.*2 = workflows).
  { induction Hk as [|wf kw wfs kws Hkw _ IH]; cbn; [reflexivity|].
    unfold sort_key in Hkw. destruct (as_number (score wf)); [|discriminate].
    injection Hkw as <-. cbn. by rewrite IH. }
  assert (Hkey : Forall (fun kw => as_number (score kw.2) = Some kw.1) keyed).
  { clear Hsnd. induction Hk as [|wf kw wfs kws Hkw _ IH]; constructor;
      [|exact IH].
    unfold sort_key in Hkw.
    destruct (as_number (score wf)) eqn:Hn; [|discriminate].
    injection Hkw as <-. exact Hn. }
  split.
  - rewrite <- Hsnd. by rewrite sort_desc_perm.
  - apply (StronglySorted_fmap snd key_ge score_ge);
      [| apply sort_desc_sorted].
    intros a b Ha Hb Hab.
    rewrite sort_desc_perm in Ha, Hb.
    rewrite Forall_forall in Hkey.
    exists a.1, b.1. split; [by apply Hkey|]. split; [by apply Hkey|].
    exact Hab.
Qed.

(** *** The lines of one entry *)

Section RenderingFacts.
Variable py_repr : json -> string.

Lemma base_info_shape wf b :
  base_info py_repr wf = Ok b ->
  starts_with "- [" b = true
  /\ exists x rest,
       format_2f (score wf) = Ok x
       /\ b = "- [" +:+ py_str py_repr (name wf) +:+ "]("
                +:+ "https://dockstore.org/workflows/"
                +:+ py_str py_repr (path wf)
                +:+ ") (similarity: " +:+ x +:+ ")" +:+ rest.
Proof.
  unfold base_info. destruct (format_2f (score wf)) as [x|]; [|discriminate].
  cbn [bind]. destruct (truthy (verified wf)); intros [= <-].
  - split; [reflexivity|]. exists x, " ✓". split; [reflexivity|].
    rewrite !string_app_assoc. reflexivity.
  - split; [reflexivity|]. exists x, "". split; [reflexivity|].
    cbn. reflexivity.
Qed.

Lemma value_line_app label value formatted :
  value_line py_repr label value formatted
  = formatted ++ line_if (truthy value)
                   ("  " +:+ label +:+ py_str py_repr value).
Proof.
  unfold value_line, line_if. destruct (truthy value);
    [reflexivity | by rewrite app_nil_r].
Qed.

Lemma joined_line_app label values formatted out :
  joined_line label values formatted = Ok out ->
  exists s, out = formatted ++ line_if (nonempty values)
                                 ("  " +:+ label +:+ s).
Proof.
  unfold joined_line, line_if. destruct values as [|v vs]; cbn [truthy nonempty].
  - intros [= <-]. exists "". by rewrite app_nil_r.
  - intros H. apply bind_Ok in H as (s & _ & [= <-]). by exists s.
Qed.

(** The lines the full-detail block adds, one per field that is not
    empty. *)
Lemma detail_lines_app wf formatted out :
  detail_lines py_repr wf formatted = Ok out ->
  exists c a i o,
    out = formatted
      ++ line_if (truthy (descriptor_type wf))
           ("  Type: " +:+ py_str py_repr (descriptor_type wf))
      ++ line_if (nonempty (categories wf)) ("  Categories: " +:+ c)
      ++ line_if (nonempty (authors wf)) ("  Authors: " +:+ a)
      ++ line_if (truthy (organization wf))
           ("  Organization: " +:+ py_str py_repr (organization wf))
      ++ line_if (nonempty (input_formats wf)) ("  Input formats: " +:+ i)
      ++ line_if (nonempty (output_formats wf)) ("  Output formats: " +:+ o).
Proof.
  unfold detail_lines. intros H.
  apply bind_Ok in H as (f1 & H1 & H).
  apply bind_Ok in H as (f2 & H2 & H).
  apply bind_Ok in H as (f3 & H3 & H4).
  apply joined_line_app in H1 as (c & ->).
  apply joined_line_app in H2 as (a & ->).
  rewrite value_line_app in H3.
  apply joined_line_app in H3 as (i & ->).
  apply joined_line_app in H4 as (o & ->).
  rewrite value_line_app.
  exists c, a, i, o. rewrite <- !app_assoc. reflexivity.
Qed.

Lemma render_entry_shape full wf ls :
  render_entry py_repr full wf = Ok ls ->
  exists b ds,
    base_info py_repr wf = Ok b
    /\ ls = b :: line_if (truthy (desc wf)) ("  " +:+ py_str py_repr (desc wf))
              ++ ds ++ [""]
    /\ detail_part py_repr full wf ds.
Proof.
  unfold render_entry. intros H.
  apply bind_Ok in H as (b & Hb & H).
  apply bind_Ok in H as (f & Hf & [= <-]).
  rewrite value_line_app in Hf.
  exists b. destruct full.
  - apply detail_lines_app in Hf as (c & a & i & o & ->).
    exists (line_if (truthy (descriptor_type wf))
              ("  Type: " +:+ py_str py_repr (descriptor_type wf))
            ++ line_if (nonempty (categories wf)) ("  Categories: " +:+ c)
            ++ line_if (nonempty (authors wf)) ("  Authors: " +:+ a)
            ++ line_if (truthy (organization wf))
                 ("  Organization: " +:+ py_str py_repr (organization wf))
            ++ line_if (nonempty (input_formats wf)) ("  Input formats: " +:+ i)
            ++ line_if (nonempty (output_formats wf))
                 ("  Output formats: " +:+ o)).
    split; [exact Hb|]. split.
    + cbn [app]. rewrite <- !app_assoc. reflexivity.
    + exists c, a, i, o. reflexivity.
  - injection Hf as <-. exists []. split; [exact Hb|].
    split; [reflexivity | reflexivity].
Qed.

(** An entry has exactly one opening line, its first. *)
Lemma render_entry_entry_lines full wf ls :
  render_entry py_repr full wf = Ok ls ->
  exists b, base_info py_repr wf = Ok b /\ entry_lines ls = [b].
Proof.
  intros H. apply render_entry_shape in H as (b & ds & Hb & -> & Hds).
  exists b. split; [exact Hb|].
  apply base_info_shape in Hb as [Hb _].
  unfold entry_lines. cbn [List.filter]. rewrite Hb. f_equal.
  unfold detail_part in Hds. destruct full.
  - destruct Hds as (c & a & i & o & ->).
    destruct (truthy (desc wf)), (truthy (descriptor_type wf)),
      (nonempty (categories wf)), (nonempty (authors wf)),
      (truthy (organization wf)), (nonempty (input_formats wf)),
      (nonempty (output_formats wf)); reflexivity.
  - subst ds. destruct (truthy (desc wf)); reflexivity.
Qed.

Lemma entry_lines_app l1 l2 :
  entry_lines (l1 ++ l2) = entry_lines l1 ++ entry_lines l2.
Proof. apply List.filter_app. Qed.

Lemma entry_lines_entries full wfs entries :
  Forall2 (fun wf e => render_entry py_repr full wf = Ok e) wfs entries ->
  length (entry_lines (concat entries)) = length wfs.
Proof.
  induction 1 as [|wf e wfs entries He _ IH]; [reflexivity|].
  cbn [concat]. rewrite entry_lines_app, length_app, IH.
  apply render_entry_entry_lines in He as (b & _ & ->). reflexivity.
Qed.

Lemma header_not_entry total_results display_count :
  starts_with "- [" (header total_results display_count) = false.
Proof. unfold header. destruct (decide _); reflexivity. Qed.

Lemma head_not_entry total_results display_count :
  entry_lines ["The following workflows were found in Dockstore:" +:+ nl;
               header total_results display_count] = [].
Proof.
  unfold entry_lines. cbn [List.filter]. rewrite header_not_entry.
  reflexivity.
Qed.

Lemma take_min_length {A} (l : list A) n : take (length l `min` n) l = take n l.
Proof.
  destruct (Nat.le_ge_cases (length l) n) as [Hle|Hge].
  - rewrite Nat.min_l by exact Hle. by rewrite !take_ge by lia.
  - by rewrite Nat.min_r by exact Hge.
Qed.

(** What a successful run over a response with a ["hits"] member did. *)
Lemma format_lines_shape hits full lines :
  format_lines py_repr hits full = Ok lines ->
  exists hs wfs sorted entries,
    (hits <~ get "hits" (JArr []) hits ;; iter hits) = Ok hs
    /\ Forall2 (fun h wf => workflow_of_hit h = Ok wf) hs wfs
    /\ sort_workflows wfs = Ok sorted
    /\ Forall2 (fun wf e => render_entry py_repr full wf = Ok e)
         (take 5 sorted) entries
    /\ lines
       = ["The following workflows were found in Dockstore:" +:+ nl;
          header (length sorted) (length sorted `min` 5)]
         ++ concat entries.
Proof.
  unfold format_lines. intros H.
  apply bind_Ok in H as (h1 & Hh1 & H).
  apply bind_Ok in H as (hs & Hhs & H).
  apply bind_Ok in H as (wfs & Hwfs & H).
  apply bind_Ok in H as (sorted & Hsorted & H).
  apply bind_Ok in H as (entries & Hentries & [= <-]).
  exists hs, wfs, sorted, entries.
  split; [by rewrite Hh1|].
  split; [by apply collect_Forall2|].
  split; [exact Hsorted|].
  split; [|reflexivity].
  apply collect_Forall2. by rewrite <- take_min_length.
Qed.

(** The three ways [format_results] returns. *)
Lemma format_results_cases results full out :
  format_results py_repr results full = Ok out ->
  (response_hits results = []
   /\ out = Text "No matching workflows found")
  \/ (exists r hits lines,
        results = Some r /\ r !! "hits" = Some hits
        /\ format_lines py_repr hits full = Ok lines
        /\ out = if full then Lines lines else Text (join nl lines)).
Proof.
  unfold format_results, response_hits.
  destruct results as [r|]; [|intros [= <-]; by left].
  destruct (negb (truthy (JObj r))) eqn:Hempty.
  - intros [= <-]. left. split; [|reflexivity].
    cbn [truthy] in Hempty. rewrite negb_involutive in Hempty.
    apply bool_decide_eq_true in Hempty. subst r.
    by rewrite lookup_empty.
  - destruct (r !! "hits") as [hits|] eqn:Hr; [|intros [= <-]; by left].
    intros H. apply bind_Ok in H as (lines & Hl & H). right.
    exists r, hits, lines. split; [reflexivity|]. split; [exact Hr|].
    split; [exact Hl|]. destruct full; by injection H as <-.
Qed.

Lemma response_hits_some r hits hs :
  r !! "hits" = Some hits ->
  (hits <~ get "hits" (JArr []) hits ;; iter hits) = Ok hs ->
  response_hits (Some r) = hs.
Proof. intros Hr Hhs. unfold response_hits. by rewrite Hr, Hhs. Qed.

(** A response without the ["hits"] member gets the fixed message. *)
Lemma format_results_no_hits r full :
  r !! "hits" = None ->
  format_results py_repr (Some r) full = Ok (Text "No matching workflows found").
Proof.
  intros Hr. unfold format_results. rewrite Hr.
  by destruct (negb (truthy (JObj r))).
Qed.

(** The code's [or] chain is the specification's fallback chain. *)
Lemma resolve_name_fallback (m : gmap string json) :
  resolve_name (JObj m) = Ok (fallback_name m).
Proof.
  unfold resolve_name, fallback_name, present, py_or. cbn [get bind].
  destruct (m !! "workflowName") as [a|], (m !! "name") as [b|],
    (m !! "repository") as [c|]; unfold default, id; cbn [from_option truthy];
    repeat first
      [ reflexivity
      | progress cbn [truthy]
      | match goal with
        | H : truthy ?x = _ |- context [truthy ?x] => rewrite H
        | |- context [truthy ?x] => is_var x; destruct (truthy x) eqn:?
        end ].
Qed.

Lemma workflow_of_hit_name hit wf :
  workflow_of_hit hit = Ok wf ->
  exists m,
    get "_source" (JObj ∅) hit = Ok (JObj m) /\ name wf = fallback_name m.
Proof.
  unfold workflow_of_hit. intros H.
  apply bind_Ok in H as (source & Hsource & H).
  apply bind_Ok in H as (sc & _ & H).
  apply bind_Ok in H as (nm & Hnm & H).
  repeat (apply bind_Ok in H as (? & _ & H)).
  injection H as <-. cbn [name].
  destruct source as [| | | | | |m]; try discriminate Hnm.
  exists m. split; [exact Hsource|].
  rewrite resolve_name_fallback in Hnm. by injection Hnm.
Qed.

(** *** Responses on which the formatter returns *)

Lemma collect_total {A B} (f : A -> result B) (P : B -> Prop) l :
  Forall (fun x => exists y, f x = Ok y /\ P y) l ->
  exists ys, collect f l = Ok ys /\ Forall P ys.
Proof.
  induction 1 as [|x l (y & Hy & HP) _ (ys & Hys & HPs)]; cbn [collect].
  - exists []. split; [reflexivity | constructor].
  - exists (y :: ys). rewrite Hy. cbn [bind]. rewrite Hys.
    split; [reflexivity | by constructor].
Qed.

Lemma join_values_total sep vs :
  forallb is_str vs = true -> exists s, join_values sep vs = Ok s.
Proof.
  intros Hvs. unfold join_values.
  destruct (collect_total as_str (fun _ => True) vs) as (ss & -> & _).
  - apply Forall_forall. intros v Hv.
    rewrite forallb_forall in Hvs. apply list_elem_of_In, Hvs in Hv.
    destruct v; try discriminate. eexists. by split.
  - by eexists.
Qed.

Lemma pluck_named field key (m : gmap string json) :
  named_items key (default (JArr []) (m !! field)) = true ->
  exists l, pluck field key (JObj m) = Ok l /\ forallb is_str l = true.
Proof.
  unfold pluck, named_items. cbn [get bind].
  destruct (default (JArr []) (m !! field)) as [| | | | |items|];
    try discriminate.
  cbn [iter bind]. intros Hitems.
  destruct (collect_total (get key (JStr "")) (fun v => is_str v = true) items)
    as (l & Hl & Hstr).
  - apply Forall_forall. intros item Hitem.
    rewrite forallb_forall in Hitems.
    apply list_elem_of_In, Hitems in Hitem.
    destruct item as [| | | | | |d]; try discriminate.
    eexists. split; [reflexivity | exact Hitem].
  - exists l. split; [exact Hl|].
    apply forallb_forall. intros v Hv.
    rewrite Forall_forall in Hstr. by apply Hstr, list_elem_of_In.
Qed.

Lemma workflow_of_hit_plain hit :
  plain_hit hit = true ->
  exists wf, workflow_of_hit hit = Ok wf /\ renderable wf = true.
Proof.
  destruct hit as [| | | | | |h]; try discriminate.
  unfold plain_hit, workflow_of_hit. cbn [get bind].
  intros [Hsrc Hscore]%andb_prop.
  destruct (default (JObj ∅) (h !! "_source")) as [| | | | | |m];
    try discriminate.
  cbn [plain_source] in Hsrc.
  apply andb_prop in Hsrc as [Hsrc Hout].
  apply andb_prop in Hsrc as [Hsrc Hin].
  apply andb_prop in Hsrc as [Hsrc Haut].
  apply andb_prop in Hsrc as [Hdesc Hcat].
  rewrite resolve_name_fallback. cbn [get bind].
  destruct (default (JStr "") (m !! "description")) as [| | | |d| |];
    try discriminate.
  assert (Hshort : short_desc (JStr d)
                   = Ok (if truthy (JStr d) then JStr (first_line d)
                         else JStr d)).
  { unfold short_desc. by destruct (truthy (JStr d)). }
  rewrite Hshort. cbn [bind].
  apply (pluck_named "categories" "name") in Hcat as (cs & -> & Hcs).
  apply (pluck_named "all_authors" "name") in Haut as (au & -> & Hau).
  apply (pluck_named "input_file_formats" "value") in Hin as (ins & -> & Hins).
  apply (pluck_named "output_file_formats" "value") in Hout
    as (outs & -> & Houts).
  cbn [bind]. eexists. split; [reflexivity|].
  unfold renderable. cbn [score categories authors input_formats output_formats].
  by rewrite Hscore, Hcs, Hau, Hins, Houts.
Qed.

Lemma formats_2f_number v : formats_2f v = true -> is_number v = true.
Proof.
  unfold formats_2f, is_number.
  destruct v as [| | |[|]| | |]; try discriminate; reflexivity.
Qed.

Lemma render_entry_total full wf :
  renderable wf = true -> exists ls, render_entry py_repr full wf = Ok ls.
Proof.
  unfold renderable. intros H.
  apply andb_prop in H as [H Houts]. apply andb_prop in H as [H Hins].
  apply andb_prop in H as [H Hau]. apply andb_prop in H as [Hscore Hcs].
  unfold render_entry, base_info, formats_2f in *.
  destruct (format_2f (score wf)) as [x|]; [|discriminate]. cbn [bind].
  destruct full; [|by eexists].
  unfold detail_lines, joined_line.
  destruct (join_values_total ", " _ Hcs) as (c & ->).
  destruct (join_values_total ", " _ Hau) as (a & ->).
  destruct (join_values_total ", " _ Hins) as (i & ->).
  destruct (join_values_total ", " _ Houts) as (o & ->).
  destruct (truthy (JArr (categories wf))), (truthy (JArr (authors wf))),
    (truthy (JArr (input_formats wf))), (truthy (JArr (output_formats wf)));
    cbn [bind]; by eexists.
Qed.

Lemma sort_workflows_total wfs :
  Forall (fun wf => renderable wf = true) wfs ->
  exists sorted,
    sort_workflows wfs = Ok sorted
    /\ Forall (fun wf => renderable wf = true) sorted.
Proof.
  intros Hwfs. unfold sort_workflows.
  destruct (collect_total sort_key (fun _ => True) wfs) as (keyed & Hk & _).
  - eapply Forall_impl; [exact Hwfs|]. intros wf Hwf.
    unfold renderable in Hwf. repeat apply andb_prop in Hwf as [Hwf _].
    apply formats_2f_number in Hwf. unfold is_number, sort_key in *.
    destruct (as_number (score wf)); [|discriminate]. eexists. by split.
  - assert (Hsort : sort_workflows wfs = Ok (sort_desc keyed).*2)
      by (unfold sort_workflows; by rewrite Hk).
    rewrite Hk. cbn [bind]. eexists. split; [reflexivity|].
    apply sort_workflows_spec in Hsort as [Hperm _].
    by rewrite Hperm.
Qed.

(** On a response of that shape the formatter returns, in either mode. *)
Lemma format_results_total (r h : gmap string json) hs full :
  r !! "hits" = Some (JObj h) ->
  default (JArr []) (h !! "hits") = JArr hs ->
  forallb plain_hit hs = true ->
  exists out, format_results py_repr (Some r) full = Ok out.
Proof.
  intros Hr Hh Hhs. unfold format_results.
  assert (Hne : negb (truthy (JObj r)) = false).
  { cbn [truthy]. rewrite negb_involutive. apply bool_decide_eq_false.
    intros ->. by rewrite lookup_empty in Hr. }
  rewrite Hne, Hr. unfold format_lines. cbn [get bind]. rewrite Hh.
  cbn [iter bind].
  destruct (collect_total workflow_of_hit (fun wf => renderable wf = true) hs)
    as (wfs & -> & Hwfs).
  { apply Forall_forall. intros hit Hhit.
    rewrite forallb_forall in Hhs.
    by apply workflow_of_hit_plain, Hhs, list_elem_of_In. }
  cbn [bind].
  destruct (sort_workflows_total wfs Hwfs) as (sorted & -> & Hsorted).
  cbn [bind].
  destruct (collect_total (render_entry py_repr full) (fun _ => True)
              (take (length sorted `min` 5) sorted)) as (entries & -> & _).
  { apply Forall_take. eapply Forall_impl; [exact Hsorted|].
    intros wf Hwf. destruct (render_entry_total full wf Hwf) as (ls & Hls).
    exists ls. by split. }
  cbn [bind]. destruct full; by eexists.
Qed.

End RenderingFacts.

(** *** The claims *)

(** C5, as the code has it: a response that is absent, or has no ["hits"]
    member, gets the message "No matching workflows found"; a response
    whose hit list is there but empty does not fail either, and gets the
    two header lines with "Found 0 workflow(s):" and no entry. *)
Theorem C5_no_hits
    (py_repr : json -> string) (full : bool) :
  format_results py_repr None full = Ok (Text "No matching workflows found")
  /\ (forall r : gmap string json,
        r !! "hits" = None ->
        format_results py_repr (Some r) full
        = Ok (Text "No matching workflows found"))
  /\ (forall (r h : gmap string json),
        r !! "hits" = Some (JObj h) ->
        h !! "hits" = None \/ h !! "hits" = Some (JArr []) ->
        format_results py_repr (Some r) full
        = Ok (let formatted :=
                ["The following workflows were found in Dockstore:" +:+ nl;
                 "Found 0 workflow(s):" +:+ nl] in
              if full then Lines formatted else Text (join nl formatted))).
Proof.
  split; [reflexivity|].
  split; [intros r Hr; by apply format_results_no_hits|].
  intros r h Hr Hh. unfold format_results.
  assert (Hne : negb (truthy (JObj r)) = false).
  { cbn [truthy]. rewrite negb_involutive. apply bool_decide_eq_false.
    intros ->. by rewrite lookup_empty in Hr. }
  rewrite Hne, Hr. unfold format_lines. cbn [get bind].
  assert (Hd : default (JArr []) (h !! "hits") = JArr [])
    by (destruct Hh as [-> | ->]; reflexivity).
  rewrite Hd. cbn [iter bind collect]. destruct full; reflexivity.
Qed.

Lemma C5_no_hits_witness :
  format_results no_repr (Some timeout_response) false
  = Ok (Text "No matching workflows found")
  /\ format_results no_repr (Some empty_response) true
     = Ok (Lines ["The following workflows were found in Dockstore:" +:+ nl;
                  "Found 0 workflow(s):" +:+ nl]).
Proof.
  destruct (C5_no_hits no_repr false) as (_ & Habsent & _).
  destruct (C5_no_hits no_repr true) as (_ & _ & Hempty).
  split.
  - apply Habsent. reflexivity.
  - apply (Hempty empty_response {[ "hits" := JArr [] ]}).
    + reflexivity.
    + right. reflexivity.
Defined.

(** C5 as stated fails: an empty hit list does not get the "no matching
    results" message. *)
Lemma C5_empty_hit_list_counterexample :
  format_results no_repr (Some empty_response) false
  = Ok (Text ("The following workflows were found in Dockstore:" +:+ nl
              +:+ nl +:+ "Found 0 workflow(s):" +:+ nl))
  /\ format_results no_repr (Some empty_response) false
     <> Ok (Text "No matching workflows found").
Proof. split; [vm_compute; reflexivity | vm_compute; discriminate]. Qed.

(** C6: the formatter renders min(number of hits, 5) entries, so never
    more than 5: a response without hits gets the fixed message and no
    entry; otherwise the list of lines it builds is the title, the header
    and the lines of exactly min(number of hits, 5) rendered workflows, and
    the output is that list (full-detail mode) or that list joined by line
    feeds (summary mode). *)
Theorem C6_at_most_five_entries
    (py_repr : json -> string) results full out :
  format_results py_repr results full = Ok out ->
  (response_hits results = []
   /\ out = Text "No matching workflows found")
  \/ exists r hits lines shown entries,
       results = Some r
       /\ r !! "hits" = Some hits
       /\ format_lines py_repr hits full = Ok lines
       /\ out = (if full then Lines lines else Text (join nl lines))
       /\ lines
          = ["The following workflows were found in Dockstore:" +:+ nl;
             header (length (response_hits results))
               (length (response_hits results) `min` 5)]
            ++ concat entries
       /\ Forall2 (fun wf entry => render_entry py_repr full wf = Ok entry)
            shown entries
       /\ length entries = length (response_hits results) `min` 5
       /\ length (entry_lines lines) = length entries
       /\ length entries <= 5.
Proof.
  intros H. apply format_results_cases in H
    as [[Hhits ->] | (r & hits & lines & -> & Hr & Hl & ->)].
  - by left.
  - right.
    destruct (format_lines_shape py_repr _ _ _ Hl)
      as (hs & wfs & sorted & entries & Hhs & Hwfs & Hsort & Hent & Hlines).
    rewrite (response_hits_some r hits hs Hr Hhs).
    apply sort_workflows_spec in Hsort as [Hperm _].
    assert (Hsorted : length sorted = length hs).
    { by rewrite (Permutation_length Hperm), <- (Forall2_length _ _ _ Hwfs). }
    assert (Hlen : length entries = length hs `min` 5).
    { rewrite <- (Forall2_length _ _ _ Hent), length_take, Hsorted. lia. }
    exists r, hits, lines, (take 5 sorted), entries.
    split; [reflexivity|]. split; [exact Hr|]. split; [exact Hl|].
    split; [reflexivity|]. split; [by rewrite Hlines, Hsorted|].
    split; [exact Hent|]. split; [exact Hlen|].
    split; [|rewrite Hlen; lia].
    rewrite Hlines, entry_lines_app, length_app, head_not_entry.
    rewrite (entry_lines_entries py_repr full _ _ Hent).
    by rewrite (Forall2_length _ _ _ Hent).
Qed.

Lemma C6_seven_hits_witness :
  exists out,
    format_results no_repr (Some ascending_response) false = Ok out
    /\ exists lines entries,
         out = Text (join nl lines)
         /\ lines
            = ["The following workflows were found in Dockstore:" +:+ nl;
               "Found 7 workflows, showing top 5 by relevance:" +:+ nl]
              ++ concat entries
         /\ length entries = 5
         /\ length (entry_lines lines) = 5.
Proof.
  eexists. split; [vm_compute; reflexivity|].
  destruct (C6_at_most_five_entries no_repr (Some ascending_response) false
              _ ltac:(vm_compute; reflexivity))
    as [[Hnone _] | (r & hits & lines & shown & entries & _ & _ & _
                     & Hout & Hlines & _ & Hlen & Hcount & _)];
    [vm_compute in Hnone; discriminate|].
  exists lines, entries. split; [exact Hout|].
  split; [exact Hlines|]. split; [exact Hlen|].
  rewrite Hcount. exact Hlen.
Defined.



(** C8: the name of a hit is its display name, else its canonical name,
    else its repository identifier, else "Unnamed Workflow", and the entry
    opens with that name: with no display name and no canonical name the
    name is the repository identifier, and with none of the three it is the
    placeholder. *)
Theorem C8_name_fallback_chain
    (py_repr : json -> string) hit wf line :
  workflow_of_hit hit = Ok wf ->
  base_info py_repr wf = Ok line ->
  exists m rest,
    get "_source" (JObj ∅) hit = Ok (JObj m)
    /\ name wf = fallback_name m
    /\ line = "- [" +:+ py_str py_repr (fallback_name m) +:+ "](" +:+ rest
    /\ (forall v, present m "workflowName" = Some v -> name wf = v)
    /\ (forall v, present m "workflowName" = None ->
                  present m "name" = Some v -> name wf = v)
    /\ (forall v, present m "workflowName" = None ->
                  present m "name" = None ->
                  present m "repository" = Some v -> name wf = v)
    /\ (present m "workflowName" = None ->
        present m "name" = None ->
        present m "repository" = None ->
        name wf = JStr "Unnamed Workflow").
Proof.
  intros Hwf Hline.
  apply workflow_of_hit_name in Hwf as (m & Hm & Hname).
  apply base_info_shape in Hline as [_ (x & rest & _ & ->)].
  exists m. eexists. split; [exact Hm|]. split; [exact Hname|].
  split; [rewrite Hname; reflexivity|].
  rewrite Hname. unfold fallback_name.
  repeat split; intros; repeat match goal with
    | H : present _ _ = _ |- _ => rewrite H; clear H
    end; reflexivity.
Qed.

Lemma C8_repository_only_witness :
  exists wf line,
    workflow_of_hit (sample_hit "broadinstitute/gatk" (1 # 2)) = Ok wf
    /\ base_info no_repr wf = Ok line
    /\ name wf = JStr "broadinstitute/gatk"
    /\ starts_with "- [broadinstitute/gatk](" line = true.
Proof.
  eexists _, _. split; [vm_compute; reflexivity|].
  split; [vm_compute; reflexivity|].
  edestruct (C8_name_fallback_chain no_repr
               (sample_hit "broadinstitute/gatk" (1 # 2)))
    as (m & rest & Hm & _ & _ & _ & _ & Hrepo & _);
    [vm_compute; reflexivity | vm_compute; reflexivity |].
  injection Hm as <-.
  split; [|vm_compute; reflexivity].
  apply Hrepo; vm_compute; reflexivity.
Defined.

(** C9: in full-detail mode an entry has a Type, Categories, Authors,
    Organization, Input formats or Output formats line exactly when the
    value or collection behind it is not empty, and no other detail
    line. *)
Theorem C9_detail_line_iff_nonempty
    (py_repr : json -> string) wf lines :
  render_entry py_repr true wf = Ok lines ->
  exists b ds,
    base_info py_repr wf = Ok b
    /\ lines = b :: line_if (truthy (desc wf))
                      ("  " +:+ py_str py_repr (desc wf))
                 ++ ds ++ [""]
    /\ has_label "Type: " ds = truthy (descriptor_type wf)
    /\ has_label "Categories: " ds = nonempty (categories wf)
    /\ has_label "Authors: " ds = nonempty (authors wf)
    /\ has_label "Organization: " ds = truthy (organization wf)
    /\ has_label "Input formats: " ds = nonempty (input_formats wf)
    /\ has_label "Output formats: " ds = nonempty (output_formats wf)
    /\ length ds
       = count_true [truthy (descriptor_type wf); nonempty (categories wf);
                     nonempty (authors wf); truthy (organization wf);
                     nonempty (input_formats wf);
                     nonempty (output_formats wf)].
Proof.
  intros H.
  apply render_entry_shape in H as (b & ds & Hb & -> & Hds).
  exists b, ds. split; [exact Hb|]. split; [reflexivity|].
  destruct Hds as (c & a & i & o & ->).
  destruct (truthy (descriptor_type wf)), (nonempty (categories wf)),
    (nonempty (authors wf)), (truthy (organization wf)),
    (nonempty (input_formats wf)), (nonempty (output_formats wf));
    repeat split; reflexivity.
Qed.

Lemma C9_detailed_workflow_witness :
  exists lines b ds,
    render_entry no_repr true detailed_workflow = Ok lines
    /\ base_info no_repr detailed_workflow = Ok b
    /\ lines = b :: ["  Somatic variant calling"] ++ ds ++ [""]
    /\ has_label "Type: " ds = true
    /\ has_label "Categories: " ds = true
    /\ has_label "Authors: " ds = false
    /\ has_label "Organization: " ds = true
    /\ has_label "Input formats: " ds = false
    /\ has_label "Output formats: " ds = true
    /\ length ds = 4.
Proof.
  destruct (C9_detail_line_iff_nonempty no_repr detailed_workflow
              ["- [Mutect2](https://dockstore.org/workflows/github.com/broadinstitute/gatk/Mutect2) (similarity: 0.90) ✓";
               "  Somatic variant calling";
               "  Type: WDL";
               "  Categories: Genomics";
               "  Organization: broadinstitute";
               "  Output formats: VCF";
               ""])
    as (b & ds & Hb & Hlines & H); [vm_compute; reflexivity|].
  eexists _, b, ds. split; [vm_compute; reflexivity|].
  split; [exact Hb|]. split; [exact Hlines | exact H].
Defined.

End ResultFormatterFacts.

(** ** Further properties of the query builder *)

Module QueryBuilderMore.
Import QueryBuilder Spec Observe ObserveMore PyFacts QueryBuilderFacts.

Lemma term_filter_inj field v v' :
  term_filter field v = term_filter field v' -> v = v'.
Proof.
  intros H. apply (f_equal (get_path ["term"; field])) in H.
  unfold term_filter in H. cbn [get_path getitem bind] in H.
  rewrite !lookup_singleton_eq in H. cbn [bind getitem] in H.
  rewrite !lookup_singleton_eq in H. by injection H.
Qed.

Lemma term_filter_field field field' v v' :
  term_filter field v = term_filter field' v' -> field = field'.
Proof.
  intros H. apply (f_equal (get_path ["term"; field])) in H.
  unfold term_filter in H. cbn [get_path getitem bind] in H.
  rewrite !lookup_singleton_eq in H. cbn [bind getitem] in H.
  rewrite lookup_singleton_eq in H.
  destruct (decide (field' = field)) as [->|Hne]; [reflexivity|].
  rewrite lookup_singleton_ne in H by exact Hne. discriminate.
Qed.

(** The [filter] list has one condition per option that is set, and no
    other: the exact-match condition on [descriptorType] when a non-empty
    descriptor type is given, the condition verified = true when
    [verified_only] holds, and at most three conditions in all. *)
Theorem filter_one_condition_per_option
    queries is_sentence query_type descriptor_type
    verified_only include_archived :
  exists body filter,
    _build_search_body queries is_sentence query_type descriptor_type
      verified_only include_archived = Ok body
    /\ get_path filter_path body = Ok (JArr filter)
    /\ (forall dt,
         term_filter "descriptorType" (JStr dt) ∈ filter
         <-> descriptor_type = Some dt /\ dt <> "")
    /\ (term_filter "verified" (JBool true) ∈ filter
        <-> verified_only = true)
    /\ length filter
       = count_true [descriptor_given descriptor_type; verified_only;
                     negb include_archived]
    /\ length filter <= 3.
Proof.
  eexists _, _. split; [apply build_body|]. split; [apply filter_of_body|].
  unfold selected_filters, descriptor_given, descriptor_set.
  assert (Hne : forall s, String.eqb s "" = false <-> s <> "").
  { intros s. rewrite <- not_true_iff_false, String.eqb_eq. tauto. }
  split; [|split; [|split]].
  - intros dt. rewrite !elem_of_app.
    destruct descriptor_type as [d|]; [destruct (String.eqb d "") eqn:Hd|].
    + apply String.eqb_eq in Hd. subst d. split.
      * intros [H|[H|H]]; exfalso; revert H;
          destruct verified_only, include_archived;
          rewrite ?elem_of_nil, ?list_elem_of_singleton;
          try tauto; intros H%term_filter_field; discriminate.
      * intros [[= <-] Hd]. done.
    + split.
      * intros [H|[H|H]].
        -- apply list_elem_of_singleton, term_filter_inj in H.
           injection H as ->. split; [reflexivity | by apply Hne].
        -- exfalso. revert H. destruct verified_only;
             rewrite ?elem_of_nil, ?list_elem_of_singleton; try tauto.
           intros H%term_filter_field. discriminate.
        -- exfalso. revert H. destruct include_archived;
             rewrite ?elem_of_nil, ?list_elem_of_singleton; try tauto.
           intros H%term_filter_field. discriminate.
      * intros [[= <-] _]. left. by apply list_elem_of_singleton.
    + split.
      * intros [H|[H|H]]; exfalso; revert H;
          destruct verified_only, include_archived;
          rewrite ?elem_of_nil, ?list_elem_of_singleton;
          try tauto; intros H%term_filter_field; discriminate.
      * intros [[=] _].
  - rewrite !elem_of_app. split.
    + intros [H|[H|H]].
      * exfalso. revert H.
        destruct descriptor_type as [d|]; [destruct (String.eqb d "")|];
          rewrite ?elem_of_nil, ?list_elem_of_singleton; try tauto;
          intros H%term_filter_field; discriminate.
      * destruct verified_only; [reflexivity|]. by apply elem_of_nil in H.
      * exfalso. revert H. destruct include_archived;
          rewrite ?elem_of_nil, ?list_elem_of_singleton; try tauto.
        intros H%term_filter_field. discriminate.
    + intros ->. right. left. by apply list_elem_of_singleton.
  - destruct descriptor_type as [d|]; [destruct (String.eqb d "")|];
      destruct verified_only, include_archived; reflexivity.
  - destruct descriptor_type as [d|]; [destruct (String.eqb d "")|];
      destruct verified_only, include_archived; cbn; lia.
Qed.

(** Whatever the input, the builder changes nothing of the request
    document but the [filter] and [should] lists: the top-level members
    other than [query] ([size], [_source], [sort], [highlight]) and, inside
    [query.bool], [must] and [minimum_should_match] are those of the
    initial document, with [size] 201 and [minimum_should_match] 1. *)
Theorem fixed_request_shaping
    queries is_sentence query_type descriptor_type
    verified_only include_archived :
  exists body,
    _build_search_body queries is_sentence query_type descriptor_type
      verified_only include_archived = Ok body
    /\ (forall key, key <> "query" ->
                    getitem key body = getitem key search_body0)
    /\ get_path ["query"; "bool"; "must"] body
       = get_path ["query"; "bool"; "must"] search_body0
    /\ get_path ["query"; "bool"; "minimum_should_match"] body
       = Ok (JInt 1)
    /\ getitem "size" body = Ok (JInt 201).
Proof.
  eexists. split; [apply build_body|].
  split; [|split; [|split]]; try reflexivity.
  intros key Hkey. unfold body_with, search_body0. cbn [getitem].
  by rewrite lookup_insert_ne.
Qed.

Lemma clause_pairs_zip query :
  clause_pairs query = zip (clause_terms query) (clause_fields query).
Proof. reflexivity. Qed.

(** Only the terms and the fields of a clause count: clause lists that
    agree on them clause by clause give the same request document, whatever
    their [operator] or any other member. *)
Theorem operator_is_inert
    queries queries' is_sentence query_type descriptor_type
    verified_only include_archived :
  Forall2
    (fun query query' =>
       clause_terms query = clause_terms query'
       /\ clause_fields query = clause_fields query')
    queries queries' ->
  _build_search_body queries is_sentence query_type descriptor_type
    verified_only include_archived
  = _build_search_body queries' is_sentence query_type descriptor_type
      verified_only include_archived.
Proof.
  intros H. rewrite !build_body. do 3 f_equal. unfold all_pairs. f_equal.
  induction H as [|q q' qs qs' [Ht Hf] _ IH]; cbn [fmap list_fmap];
    [reflexivity|].
  by rewrite IH, !clause_pairs_zip, Ht, Hf.
Qed.

Lemma operator_is_inert_witness :
  _build_search_body [and_clause] false "match_phrase" None false false
  = _build_search_body [or_clause] false "match_phrase" None false false.
Proof.
  apply (operator_is_inert [and_clause] [or_clause]).
  repeat constructor.
Defined.

(** Every query type other than the string "wildcard" is treated as
    "match_phrase". *)
Theorem other_query_types_are_phrase
    queries is_sentence query_type descriptor_type
    verified_only include_archived :
  query_type <> "wildcard" ->
  _build_search_body queries is_sentence query_type descriptor_type
    verified_only include_archived
  = _build_search_body queries is_sentence "match_phrase" descriptor_type
      verified_only include_archived.
Proof.
  intros Hne. rewrite !build_body. do 2 f_equal.
  apply list_fmap_ext. intros _ [term field] _. unfold should_entry.
  apply String.eqb_neq in Hne. rewrite Hne. reflexivity.
Qed.

Lemma other_query_types_are_phrase_witness :
  _build_search_body [and_clause] true "WILDCARD" None false false
  = _build_search_body [and_clause] true "match_phrase" None false false.
Proof.
  apply (other_query_types_are_phrase [and_clause] true "WILDCARD").
  discriminate.
Defined.

(** The [should] list is empty exactly when every clause lacks terms or
    lacks fields (the key missing, or its value empty); so it is for an
    empty clause list, while [minimum_should_match] stays 1. *)
Theorem should_empty_iff_no_pairs
    queries is_sentence query_type descriptor_type
    verified_only include_archived :
  exists body should,
    _build_search_body queries is_sentence query_type descriptor_type
      verified_only include_archived = Ok body
    /\ get_path should_path body = Ok (JArr should)
    /\ (should = []
        <-> Forall (fun query => clause_terms query = []
                                 \/ clause_fields query = []) queries).
Proof.
  eexists _, _. split; [apply build_body|]. split; [apply should_of_body|].
  assert (Hmap : forall pairs : list (string * string),
    (fun p => should_entry is_sentence query_type p.1 p.2) <$> pairs = []
    <-> pairs = []).
  { intros pairs. split; [apply fmap_nil_inv | by intros ->]. }
  rewrite Hmap. unfold all_pairs.
  induction queries as [|q queries IH]; cbn [fmap list_fmap concat].
  - split; [constructor | reflexivity].
  - rewrite Forall_cons, <- IH, clause_pairs_zip, app_nil.
    split.
    + intros [H1 H2]. split; [|exact H2].
      destruct (clause_terms q), (clause_fields q); try discriminate; auto.
    + intros [[->| ->] ->]; [by split|].
      by rewrite zip_with_nil_r.
Qed.

End QueryBuilderMore.

(** ** Further properties of the result formatter *)

Module ResultFormatterMore.
Import ResultFormatter Spec Observe ObserveMore PyFacts ResultFormatterFacts.

(** *** The short description *)

Lemma first_line_no_LF s : LF ∉ String.list_ascii_of_string (first_line s).
Proof.
  induction s as [|c s IH]; cbn [first_line].
  - apply not_elem_of_nil.
  - destruct (Ascii.eqb c LF) eqn:Hc; [apply not_elem_of_nil|].
    cbn [String.list_ascii_of_string]. apply not_elem_of_cons.
    split; [|exact IH]. intros <-. by rewrite Ascii.eqb_refl in Hc.
Qed.

Lemma first_line_prefix s :
  first_line s = s \/ exists rest, s = first_line s +:+ String LF rest.
Proof.
  induction s as [|c s IH]; cbn [first_line]; [by left|].
  destruct (Ascii.eqb c LF) eqn:Hc.
  - apply Ascii.eqb_eq in Hc. subst c. right. by exists s.
  - destruct IH as [->|(rest & Hrest)]; [by left|].
    right. exists rest.
    change (String c s = String c (first_line s +:+ String LF rest)).
    by rewrite <- Hrest.
Qed.

(** What a successful pass of the loop body read from the hit. *)
Lemma workflow_of_hit_inv hit wf :
  workflow_of_hit hit = Ok wf ->
  exists h m,
    hit = JObj h
    /\ default (JObj ∅) (h !! "_source") = JObj m
    /\ score wf = default (JInt 0) (h !! "_score")
    /\ name wf = fallback_name m
    /\ path wf = default (JStr "") (m !! "full_workflow_path")
    /\ short_desc (default (JStr "") (m !! "description")) = Ok (desc wf)
    /\ descriptor_type wf = default (JStr "") (m !! "descriptorType")
    /\ pluck "categories" "name" (JObj m) = Ok (categories wf)
    /\ verified wf = default (JBool false) (m !! "verified")
    /\ pluck "all_authors" "name" (JObj m) = Ok (authors wf)
    /\ organization wf = default (JStr "") (m !! "organization")
    /\ pluck "input_file_formats" "value" (JObj m) = Ok (input_formats wf)
    /\ pluck "output_file_formats" "value" (JObj m) = Ok (output_formats wf).
Proof.
  unfold workflow_of_hit. intros H.
  destruct hit as [| | | | | |h]; try discriminate H.
  cbn [get bind] in H.
  destruct (default (JObj ∅) (h !! "_source")) as [| | | | | |m] eqn:Hm;
    try discriminate H.
  rewrite resolve_name_fallback in H. cbn [get bind] in H.
  apply bind_Ok in H as (d & Hd & H).
  apply bind_Ok in H as (cs & Hcs & H).
  apply bind_Ok in H as (au & Hau & H).
  apply bind_Ok in H as (ins & Hins & H).
  apply bind_Ok in H as (outs & Houts & H).
  injection H as <-. exists h, m. cbn.
  repeat split; assumption || reflexivity.
Qed.

(** The short description of a workflow is the description of the hit up
    to its first line feed, and has no line feed in it; a description that
    is missing or empty is kept as it is. *)
Theorem short_description_is_first_line hit wf :
  workflow_of_hit hit = Ok wf ->
  exists (m : gmap string json) description,
    get "_source" (JObj ∅) hit = Ok (JObj m)
    /\ description = default (JStr "") (m !! "description")
    /\ if truthy description then
         exists s,
           description = JStr s
           /\ desc wf = JStr (first_line s)
           /\ (LF ∉ String.list_ascii_of_string (first_line s))
           /\ (first_line s = s
               \/ exists rest, s = first_line s +:+ String LF rest)
       else desc wf = description.
Proof.
  intros H. apply workflow_of_hit_inv in H
    as (h & m & -> & Hm & _ & _ & _ & Hd & _).
  exists m, (default (JStr "") (m !! "description")).
  split; [cbn [get]; by rewrite Hm|]. split; [reflexivity|].
  unfold short_desc in Hd.
  destruct (truthy (default (JStr "") (m !! "description"))).
  - destruct (default (JStr "") (m !! "description")) as [| | | |s| |];
      try discriminate Hd.
    injection Hd as <-. exists s. split; [reflexivity|].
    split; [reflexivity|]. split; [apply first_line_no_LF|].
    apply first_line_prefix.
  - by injection Hd as <-.
Qed.

Lemma short_description_is_first_line_witness :
  exists wf,
    workflow_of_hit two_paragraph_hit = Ok wf
    /\ desc wf = JStr "Calls variants.".
Proof.
  eexists. split; [vm_compute; reflexivity|].
  edestruct (short_description_is_first_line two_paragraph_hit)
    as (m & description & Hm & -> & H); [vm_compute; reflexivity|].
  injection Hm as <-. vm_compute in H.
  destruct H as (s & [= <-] & H & _). exact H.
Defined.

(** *** The sort keeps ties in input order *)







(** *** What the formatter returns, and when it raises *)

(** The kind of value returned depends on the mode only when the response
    has a ["hits"] member: without one the fixed message is returned as a
    string in both modes; with one, full-detail mode returns a list of
    lines and summary mode a string. *)
Theorem output_kind_by_mode (py_repr : json -> string) results full out :
  format_results py_repr results full = Ok out ->
  if has_hits_member results then
    if full then exists lines, out = Lines lines
    else exists text, out = Text text
  else out = Text "No matching workflows found".
Proof.
  unfold format_results, has_hits_member.
  destruct results as [r|]; [|by intros [= <-]].
  destruct (r !! "hits") as [hits|] eqn:Hr.
  - rewrite bool_decide_eq_true_2 by by eexists.
    assert (Hne : negb (truthy (JObj r)) = false).
    { cbn [truthy]. rewrite negb_involutive. apply bool_decide_eq_false.
      intros ->. by rewrite lookup_empty in Hr. }
    rewrite Hne. intros H. apply bind_Ok in H as (lines & _ & H).
    destruct full; injection H as <-; by eexists.
  - rewrite bool_decide_eq_false_2 by (intros [? [=]]).
    by destruct (negb (truthy (JObj r))); intros [= <-].
Qed.

Lemma output_kind_by_mode_witness :
  exists out,
    format_results no_repr (Some ascending_response) true = Ok out
    /\ exists lines, out = Lines lines.
Proof.
  eexists. split; [vm_compute; reflexivity|].
  apply (output_kind_by_mode no_repr (Some ascending_response) true).
  vm_compute. reflexivity.
Defined.

(** A response whose ["hits"] member is not an object (a list, a string,
    a number, [None]) makes the formatter raise. *)
Theorem hits_member_not_object_raises
    (py_repr : json -> string) (r : gmap string json) hits full :
  r !! "hits" = Some hits ->
  is_obj hits = false ->
  format_results py_repr (Some r) full = Raise.
Proof.
  intros Hr Hhits. unfold format_results.
  assert (Hne : negb (truthy (JObj r)) = false).
  { cbn [truthy]. rewrite negb_involutive. apply bool_decide_eq_false.
    intros ->. by rewrite lookup_empty in Hr. }
  rewrite Hne, Hr. unfold format_lines.
  destruct hits; try discriminate; reflexivity.
Qed.

Lemma hits_member_not_object_raises_witness :
  format_results no_repr (Some {[ "hits" := JArr [] ]}) false = Raise.
Proof.
  apply (hits_member_not_object_raises no_repr {[ "hits" := JArr [] ]}
           (JArr [])); reflexivity.
Defined.

Lemma collect_Raise {A B} (f : A -> result B) l x :
  x ∈ l -> f x = Raise -> collect f l = Raise.
Proof.
  intros Hx Hf. induction l as [|y l IH]; [by apply elem_of_nil in Hx|].
  cbn [collect]. apply elem_of_cons in Hx as [<-|Hx].
  - by rewrite Hf.
  - destruct (f y); [|reflexivity]. cbn [bind]. by rewrite IH.
Qed.

Lemma collect_elem {A B} (f : A -> result B) l ys x :
  collect f l = Ok ys -> x ∈ l -> exists y, y ∈ ys /\ f x = Ok y.
Proof.
  intros H Hx. apply collect_Forall2 in H.
  induction H as [|a y l ys Hy _ IH]; [by apply elem_of_nil in Hx|].
  apply elem_of_cons in Hx as [->|Hx].
  - exists y. split; [by left | exact Hy].
  - destruct (IH Hx) as (y' & Hy' & Hf). exists y'.
    split; [by right | exact Hf].
Qed.

(** A hit whose [_score] is there and is not a number ([None], a string,
    a list, a dictionary) makes the formatter raise, wherever the hit is in
    the list. *)
Theorem non_numeric_score_raises
    (py_repr : json -> string) (r h hit : gmap string json) hs v full :
  r !! "hits" = Some (JObj h) ->
  h !! "hits" = Some (JArr hs) ->
  JObj hit ∈ hs ->
  hit !! "_score" = Some v ->
  is_number v = false ->
  format_results py_repr (Some r) full = Raise.
Proof.
  intros Hr Hh Hhit Hv Hnum. unfold format_results.
  assert (Hne : negb (truthy (JObj r)) = false).
  { cbn [truthy]. rewrite negb_involutive. apply bool_decide_eq_false.
    intros ->. by rewrite lookup_empty in Hr. }
  rewrite Hne, Hr. unfold format_lines. cbn [get bind]. rewrite Hh.
  cbn [default from_option id iter bind].
  destruct (collect workflow_of_hit hs) as [wfs|] eqn:Hwfs; [|reflexivity].
  cbn [bind].
  destruct (collect_elem _ _ _ _ Hwfs Hhit) as (wf & Hwf & Hof).
  apply workflow_of_hit_inv in Hof as (h' & m & [= <-] & _ & Hscore & _).
  rewrite Hv in Hscore. cbn in Hscore.
  assert (Hsort : sort_workflows wfs = Raise).
  { unfold sort_workflows.
    rewrite (collect_Raise sort_key wfs wf Hwf); [reflexivity|].
    unfold sort_key. rewrite Hscore. unfold is_number in Hnum.
    by destruct (as_number v). }
  by rewrite Hsort.
Qed.

Lemma non_numeric_score_raises_witness :
  format_results no_repr (Some null_score_response) false = Raise.
Proof.
  apply (non_numeric_score_raises no_repr null_score_response
           null_score_hits null_score_hit
           [sample_hit "a" (1 # 2); JObj null_score_hit] JNull false);
    try reflexivity.
  apply elem_of_cons. right. apply elem_of_cons. by left.
Defined.

Lemma int_to_float_overflow z :
  (float_limit <= Z.abs z)%Z -> int_to_float z = Raise.
Proof.
  intros Hz. unfold int_to_float.
  assert (Hpos : (0 < float_limit)%Z) by reflexivity.
  set (m := Z.abs z) in *.
  assert (Hm : (0 < m)%Z) by lia.
  destruct (m =? 0)%Z eqn:Hm0; [apply Z.eqb_eq in Hm0; lia|].
  pose proof (Z.log2_spec m Hm) as [Hlow _].
  assert (Hlog : (1024 <= Z.log2 m)%Z).
  { change 1024%Z with (Z.log2 float_limit). by apply Z.log2_le_mono. }
  set (L := Z.log2 m) in *.
  destruct (L + 1 <=? 53)%Z eqn:Hbits; [apply Z.leb_le in Hbits; lia|].
  cbv zeta.
  set (shift := (L + 1 - 53)%Z).
  set (q := Z.shiftr m shift).
  assert (Hshift : (0 <= shift)%Z) by (unfold shift; lia).
  assert (Hq : (2 ^ 52 <= q)%Z).
  { unfold q. rewrite Z.shiftr_div_pow2 by exact Hshift.
    replace (2 ^ 52)%Z with (2 ^ L / 2 ^ shift)%Z.
    - apply Z.div_le_mono; [apply Z.pow_pos_nonneg; lia | exact Hlow].
    - rewrite <- Z.pow_sub_r by (unfold shift; lia).
      f_equal. unfold shift. lia. }
  assert (Hx : forall q', (q <= q')%Z ->
                          (float_limit <=? Z.shiftl q' shift)%Z = true).
  { intros q' Hq'. apply Z.leb_le.
    rewrite Z.shiftl_mul_pow2 by exact Hshift.
    apply Z.le_trans with (2 ^ L)%Z.
    - unfold float_limit. apply Z.pow_le_mono_r; lia.
    - replace (2 ^ L)%Z with (2 ^ 52 * 2 ^ shift)%Z.
      + apply Z.mul_le_mono_nonneg_r; [apply Z.pow_nonneg; lia | lia].
      + rewrite <- Z.pow_add_r by lia. f_equal. unfold shift. lia. }
  destruct (_ || _); rewrite Hx by lia; reflexivity.
Qed.

(** An [int] score too large for a [float] makes the formatter raise when
    its entry is rendered: so it is for any hit of a list of at most five
    hits. *)
Theorem int_score_beyond_float_raises
    (py_repr : json -> string) (r h hit : gmap string json) hs z full :
  r !! "hits" = Some (JObj h) ->
  h !! "hits" = Some (JArr hs) ->
  length hs <= 5 ->
  JObj hit ∈ hs ->
  hit !! "_score" = Some (JInt z) ->
  (float_limit <= Z.abs z)%Z ->
  format_results py_repr (Some r) full = Raise.
Proof.
  intros Hr Hh Hlen Hhit Hz Hbig. unfold format_results.
  assert (Hne : negb (truthy (JObj r)) = false).
  { cbn [truthy]. rewrite negb_involutive. apply bool_decide_eq_false.
    intros ->. by rewrite lookup_empty in Hr. }
  rewrite Hne, Hr. unfold format_lines. cbn [get bind]. rewrite Hh.
  cbn [default from_option id iter bind].
  destruct (collect workflow_of_hit hs) as [wfs|] eqn:Hwfs; [|reflexivity].
  cbn [bind].
  destruct (sort_workflows wfs) as [sorted|] eqn:Hsort; [|reflexivity].
  cbn [bind].
  destruct (collect_elem _ _ _ _ Hwfs Hhit) as (wf & Hwf & Hof).
  apply workflow_of_hit_inv in Hof as (h' & m & [= <-] & _ & Hscore & _).
  rewrite Hz in Hscore. cbn in Hscore.
  apply sort_workflows_spec in Hsort as [Hperm _].
  assert (Hall : take (length sorted `min` 5) sorted = sorted).
  { apply take_ge. rewrite (Permutation_length Hperm).
    apply collect_length in Hwfs. lia. }
  rewrite Hall.
  rewrite (collect_Raise (render_entry py_repr full) sorted wf);
    [reflexivity | by rewrite Hperm |].
  unfold render_entry, base_info. rewrite Hscore. cbn [format_2f].
  by rewrite (int_to_float_overflow z Hbig).
Qed.

Lemma int_score_beyond_float_raises_witness :
  format_results no_repr (Some huge_score_response) false = Raise.
Proof.
  apply (int_score_beyond_float_raises no_repr huge_score_response
           huge_score_hits huge_score_hit
           [sample_hit "a" (1 # 2); JObj huge_score_hit] (10 ^ 400) false);
    try reflexivity.
  - cbn. lia.
  - apply elem_of_cons. right. apply elem_of_cons. by left.
  - vm_compute. discriminate.
Defined.

(** *** The header, the size of the output and the entries left out *)

Lemma format_results_with_hits
    (py_repr : json -> string) (r : gmap string json) hits full out :
  r !! "hits" = Some hits ->
  format_results py_repr (Some r) full = Ok out ->
  exists lines,
    format_lines py_repr hits full = Ok lines
    /\ out = if full then Lines lines else Text (join nl lines).
Proof.
  intros Hr. unfold format_results.
  assert (Hne : negb (truthy (JObj r)) = false).
  { cbn [truthy]. rewrite negb_involutive. apply bool_decide_eq_false.
    intros ->. by rewrite lookup_empty in Hr. }
  rewrite Hne, Hr. intros H. apply bind_Ok in H as (lines & Hl & H).
  exists lines. split; [exact Hl|]. by destruct full; injection H as <-.
Qed.

Lemma renders_by_mode (full : bool) lines :
  renders (if full then Lines lines else Text (join nl lines)) lines.
Proof. destruct full; [by left | by right]. Qed.

Lemma header_found n : header n (n `min` 5) = found_line n.
Proof.
  unfold header, found_line.
  destruct (decide (5 < n)), (decide (n <= 5)); try lia; [|reflexivity].
  by rewrite Nat.min_r by lia.
Qed.

(** When the response has a ["hits"] member, the second line of the output
    states the number of hits, and says that the top 5 are shown exactly
    when there are more than 5 hits. *)
Theorem header_states_hit_count
    (py_repr : json -> string) (r : gmap string json) hits full out :
  r !! "hits" = Some hits ->
  format_results py_repr (Some r) full = Ok out ->
  exists rest,
    renders out
      (("The following workflows were found in Dockstore:" +:+ nl)
         :: found_line (length (response_hits (Some r))) :: rest).
Proof.
  intros Hr H.
  apply (format_results_with_hits py_repr r hits full out Hr) in H
    as (lines & Hl & ->).
  apply format_lines_shape in Hl
    as (hs & wfs & sorted & entries & Hhs & Hwfs & Hsort & _ & ->).
  rewrite (response_hits_some r hits hs Hr Hhs).
  apply sort_workflows_spec in Hsort as [Hperm _].
  rewrite (Permutation_length Hperm), <- (Forall2_length _ _ _ Hwfs).
  rewrite header_found. exists (concat entries). apply renders_by_mode.
Qed.

Lemma header_states_hit_count_witness :
  exists out rest,
    format_results no_repr (Some ascending_response) false = Ok out
    /\ renders out
         (("The following workflows were found in Dockstore:" +:+ nl)
            :: ("Found 7 workflows, showing top 5 by relevance:" +:+ nl)
            :: rest).
Proof.
  eexists.
  destruct (header_states_hit_count no_repr ascending_response
              (JObj {[ "hits" := JArr [
                 sample_hit "a" (1 # 10); sample_hit "b" (3 # 10);
                 sample_hit "c" (5 # 10); sample_hit "d" (5 # 10);
                 sample_hit "e" (8 # 10); sample_hit "f" (9 # 10);
                 sample_hit "g" (9 # 10) ] ]}) false
              _ eq_refl ltac:(vm_compute; reflexivity)) as (rest & H).
  exists rest. split; [vm_compute; reflexivity | exact H].
Defined.

Lemma render_entry_length (py_repr : json -> string) full wf ls :
  render_entry py_repr full wf = Ok ls ->
  2 <= length ls <= if full then 9 else 3.
Proof.
  intros H. apply render_entry_shape in H as (b & ds & _ & -> & Hds).
  unfold detail_part in Hds. destruct full.
  - destruct Hds as (c & a & i & o & ->).
    destruct (truthy (desc wf)), (truthy (descriptor_type wf)),
      (nonempty (categories wf)), (nonempty (authors wf)),
      (truthy (organization wf)), (nonempty (input_formats wf)),
      (nonempty (output_formats wf)); cbn; lia.
  - subst ds. destruct (truthy (desc wf)); cbn; lia.
Qed.

Lemma entries_length (py_repr : json -> string) full wfs entries :
  Forall2 (fun wf e => render_entry py_repr full wf = Ok e) wfs entries ->
  length (concat entries) <= (if full then 9 else 3) * length wfs.
Proof.
  induction 1 as [|wf e wfs entries He _ IH]; [cbn; lia|].
  cbn [concat length]. rewrite length_app.
  apply render_entry_length in He. destruct full; lia.
Qed.

Lemma entries_bounds (py_repr : json -> string) full wfs entries :
  Forall2 (fun wf e => render_entry py_repr full wf = Ok e) wfs entries ->
  Forall (fun e => 2 <= length e <= if full then 9 else 3) entries.
Proof.
  induction 1 as [|wf e wfs entries He _ IH]; constructor; [|exact IH].
  by apply render_entry_length in He.
Qed.

(** What the list of lines is made of, for [n] hits. *)
Lemma format_lines_entries (py_repr : json -> string) hits full lines hs :
  format_lines py_repr hits full = Ok lines ->
  (hits <~ get "hits" (JArr []) hits ;; iter hits) = Ok hs ->
  exists entries,
    lines = ["The following workflows were found in Dockstore:" +:+ nl;
             found_line (length hs)] ++ concat entries
    /\ length entries = length hs `min` 5
    /\ length (entry_lines lines) = length entries
    /\ Forall (fun e => 2 <= length e <= if full then 9 else 3) entries
    /\ length lines <= 2 + (if full then 9 else 3) * length entries.
Proof.
  intros Hl Hhs. apply format_lines_shape in Hl
    as (hs' & wfs & sorted & entries & Hhs' & Hwfs & Hsort & Hent & ->).
  rewrite Hhs in Hhs'. injection Hhs' as <-.
  apply sort_workflows_spec in Hsort as [Hperm _].
  assert (Hsorted : length sorted = length hs).
  { by rewrite (Permutation_length Hperm), <- (Forall2_length _ _ _ Hwfs). }
  exists entries. rewrite Hsorted, header_found.
  split; [reflexivity|].
  split; [rewrite <- (Forall2_length _ _ _ Hent), length_take, Hsorted; lia|].
  split.
  - rewrite <- header_found, entry_lines_app, length_app, head_not_entry.
    rewrite (entry_lines_entries py_repr full _ _ Hent).
    by rewrite (Forall2_length _ _ _ Hent).
  - split; [by apply (entries_bounds py_repr full (take 5 sorted))|].
    rewrite length_app. cbn [length].
    pose proof (entries_length py_repr full _ _ Hent) as Hle.
    rewrite (Forall2_length _ _ _ Hent) in Hle. lia.
Qed.

(** The output is bounded whatever the number of hits: the list of lines
    the formatter builds (returned as it is in full-detail mode, joined by
    line feeds in summary mode) is the title, the header and at most five
    entries of 2 to 9 lines each in full-detail mode and 2 to 3 in summary
    mode, so at most 47, respectively 17, lines. *)
Theorem output_is_bounded
    (py_repr : json -> string) (r : gmap string json) hits full out :
  r !! "hits" = Some hits ->
  format_results py_repr (Some r) full = Ok out ->
  exists lines entries,
    format_lines py_repr hits full = Ok lines
    /\ out = (if full then Lines lines else Text (join nl lines))
    /\ lines = ["The following workflows were found in Dockstore:" +:+ nl;
                found_line (length (response_hits (Some r)))]
               ++ concat entries
    /\ length entries <= 5
    /\ Forall (fun e => 2 <= length e <= if full then 9 else 3) entries
    /\ length lines <= if full then 47 else 17.
Proof.
  intros Hr H.
  apply (format_results_with_hits py_repr r hits full out Hr) in H
    as (lines & Hl & ->).
  destruct (format_lines_shape py_repr _ _ _ Hl) as (hs & _ & _ & _ & Hhs & _).
  destruct (format_lines_entries py_repr _ _ _ _ Hl Hhs)
    as (entries & Hlines & Hlen & _ & Hbounds & Htotal).
  rewrite (response_hits_some r hits hs Hr Hhs).
  exists lines, entries. split; [exact Hl|]. split; [reflexivity|].
  split; [exact Hlines|]. split; [lia|]. split; [exact Hbounds|].
  destruct full; lia.
Qed.

Lemma output_is_bounded_witness :
  exists out lines,
    format_results no_repr (Some ascending_response) true = Ok out
    /\ out = Lines lines
    /\ length lines <= 47.
Proof.
  eexists.
  destruct (output_is_bounded no_repr ascending_response
              (JObj {[ "hits" := JArr [
                 sample_hit "a" (1 # 10); sample_hit "b" (3 # 10);
                 sample_hit "c" (5 # 10); sample_hit "d" (5 # 10);
                 sample_hit "e" (8 # 10); sample_hit "f" (9 # 10);
                 sample_hit "g" (9 # 10) ] ]}) true
              _ eq_refl ltac:(vm_compute; reflexivity))
    as (lines & entries & _ & Hout & _ & _ & _ & Hlen).
  exists lines. split; [vm_compute; reflexivity|].
  split; [exact Hout | exact Hlen].
Defined.



End ResultFormatterMore.

(** ** Properties of the search call and the command line *)

Module ClientFacts.
Import QueryBuilder ResultFormatter Client Spec Observe ObserveMore PyFacts.
Import QueryBuilderFacts ResultFormatterFacts ResultFormatterMore.

Lemma search_failed (post : json -> post_outcome)
    queries is_sentence query_type descriptor_type
    verified_only include_archived :
  (forall body response, post body <> Response 200 (Ok response)) ->
  search post queries is_sentence query_type descriptor_type verified_only
    include_archived = None
  \/ search post queries is_sentence query_type descriptor_type verified_only
       include_archived
     = Some {[ "error" := JStr "Request timed out after 30 seconds" ]}.
Proof.
  intros Hpost. unfold search. rewrite build_body.
  destruct (post _) as [status [response|]| |] eqn:Hp; auto.
  - destruct (status =? 200)%Z eqn:Hs; cbn [negb]; [|by left].
    apply Z.eqb_eq in Hs. subst status. by apply Hpost in Hp.
  - destruct (negb (status =? 200)%Z); by left.
Qed.

(** Whenever the gateway fails (a timeout, another exception, a status
    other than 200, a body that does not parse), formatting what [search]
    returns gives "No matching workflows found" and does not raise: a
    timeout is rendered like an empty result. *)
Theorem failed_search_formats_as_no_match
    (post : json -> post_outcome) (py_repr : json -> string)
    queries is_sentence query_type descriptor_type
    verified_only include_archived full :
  (forall body response, post body <> Response 200 (Ok response)) ->
  format_results py_repr
    (search post queries is_sentence query_type descriptor_type
       verified_only include_archived) full
  = Ok (Text "No matching workflows found").
Proof.
  intros Hpost.
  destruct (search_failed post queries is_sentence query_type
              descriptor_type verified_only include_archived Hpost)
    as [-> | ->]; [reflexivity|].
  by apply format_results_no_hits.
Qed.

Lemma failed_search_formats_as_no_match_witness :
  format_results no_repr
    (search timing_out [and_clause] false "match_phrase" None false false)
    true
  = Ok (Text "No matching workflows found").
Proof.
  apply (failed_search_formats_as_no_match timing_out no_repr).
  intros body response. discriminate.
Defined.

(** Each [-q TERM FIELD OPERATOR] option of the command line gives exactly
    one condition of the [should] list, on that field for that term, in the
    order of the options; the operator has no effect on it. *)
Theorem command_line_one_condition_per_option
    (upper : string -> string) (args : arguments) :
  exists body,
    _build_search_body (cli_queries upper args) (sentence args) (type args)
      (arg_descriptor_type args) (arg_verified_only args)
      (arg_include_archived args) = Ok body
    /\ get_path should_path body
       = Ok (JArr ((fun q => should_entry (sentence args) (type args)
                               q.1.1 q.1.2)
                     <$> default [] (query args))).
Proof.
  eexists. split; [apply build_body|]. rewrite should_of_body.
  do 2 f_equal. unfold cli_queries, all_pairs.
  destruct (query args) as [qs|]; [|reflexivity]. cbn [default from_option id].
  induction qs as [|[[term field] operator] qs IH]; [reflexivity|].
  cbn [fmap list_fmap concat app]. rewrite fmap_app, IH. reflexivity.
Qed.

Lemma cli_queries_cons (upper : string -> string) args q qs :
  query args = Some (q :: qs) ->
  exists c cs, cli_queries upper args = c :: cs.
Proof.
  intros Hq. unfold cli_queries. rewrite Hq. destruct q as [[term field] op].
  by eexists _, _.
Qed.

(** Whenever the gateway fails, [main] reports "not found", as it does for
    a response without hits: on the command line a timeout cannot be told
    from an empty result. *)
Theorem main_reports_failure_as_not_found
    (post : json -> post_outcome) (upper : string -> string)
    (py_repr : json -> string) (args : arguments) q qs :
  query args = Some (q :: qs) ->
  (forall body response, post body <> Response 200 (Ok response)) ->
  main post upper py_repr args = NotFound.
Proof.
  intros Hq Hpost. unfold main.
  destruct (cli_queries_cons upper args q qs Hq) as (c & cs & ->).
  destruct (search_failed post (c :: cs) (sentence args) (type args)
              (arg_descriptor_type args) (arg_verified_only args)
              (arg_include_archived args) Hpost) as [-> | ->];
    reflexivity.
Qed.

Lemma main_reports_failure_as_not_found_witness :
  main timing_out id no_repr one_query = NotFound.
Proof.
  apply (main_reports_failure_as_not_found timing_out id no_repr one_query
           ("RNA-seq", "description", "and") []); [reflexivity|].
  intros body response. discriminate.
Defined.

Lemma entry_count (py_repr : json -> string) hits full lines hs :
  format_lines py_repr hits full = Ok lines ->
  (hits <~ get "hits" (JArr []) hits ;; iter hits) = Ok hs ->
  length (entry_lines lines) = length hs `min` 5.
Proof.
  intros Hl Hhs. apply format_lines_shape in Hl
    as (hs' & wfs & sorted & entries & Hhs' & Hwfs & Hsort & Hent & ->).
  rewrite Hhs in Hhs'. injection Hhs' as <-.
  apply sort_workflows_spec in Hsort as [Hperm _].
  rewrite entry_lines_app, length_app, head_not_entry.
  rewrite (entry_lines_entries py_repr full _ _ Hent), length_take.
  rewrite (Forall2_length _ _ _ Hwfs), <- (Permutation_length Hperm).
  cbn [length]. lia.
Qed.

Lemma iter_truthy v hs : iter v = Ok hs -> truthy v = true -> hs <> [].
Proof.
  destruct v as [| | | |s|l|m]; try discriminate; cbn [iter truthy];
    intros [= <-] Ht.
  - destruct s; [discriminate|]. discriminate.
  - by destruct l.
  - apply negb_true_iff, bool_decide_eq_false in Ht.
    intros Hnil. apply Ht, map_to_list_empty_iff.
    by destruct (map_to_list m).
Qed.

(** What [main] prints as results always has at least one entry and at
    most five, and the response it saves is the one it formatted: the list
    of lines the formatter built is the title, the header and the lines of
    min(number of hits, 5) >= 1 workflows, printed as it is or joined by
    line feeds; a response with an empty hit list is reported as "not
    found" before the formatter is called. *)
Theorem main_shows_between_one_and_five_entries
    (post : json -> post_outcome) (upper : string -> string)
    (py_repr : json -> string) (args : arguments) printed saved :
  main post upper py_repr args = Shown printed saved ->
  format_results py_repr saved (outputfull args) = Ok printed
  /\ response_hits saved <> []
  /\ exists r hits lines entries,
       saved = Some r
       /\ r !! "hits" = Some hits
       /\ format_lines py_repr hits (outputfull args) = Ok lines
       /\ printed = (if outputfull args then Lines lines
                     else Text (join nl lines))
       /\ lines
          = ["The following workflows were found in Dockstore:" +:+ nl;
             found_line (length (response_hits saved))] ++ concat entries
       /\ length entries = length (response_hits saved) `min` 5
       /\ length (entry_lines lines) = length entries
       /\ 1 <= length entries <= 5.
Proof.
  unfold main. destruct (cli_queries upper args) as [|c cs]; [discriminate|].
  set (results := search post (c :: cs) (sentence args) (type args)
                    (arg_descriptor_type args) (arg_verified_only args)
                    (arg_include_archived args)).
  clearbody results.
  destruct (nothing_found results) as [[|]|] eqn:Hfound; try discriminate.
  destruct (format_results py_repr results (outputfull args))
    as [out|] eqn:Hout; [|discriminate].
  intros [= <- <-]. split; [exact Hout|].
  unfold nothing_found in Hfound.
  destruct results as [r|]; [|discriminate].
  destruct (negb (truthy (JObj r))); [discriminate|].
  destruct (r !! "hits") as [hits|] eqn:Hr; [|discriminate].
  apply bind_Ok in Hfound as (v & Hv & [= Htruthy]).
  apply negb_false_iff in Htruthy.
  destruct hits as [| | | | | |h]; try discriminate Hv.
  cbn [get] in Hv. injection Hv as <-.
  assert (Hsame : default (JArr []) (h !! "hits") = default JNull (h !! "hits")).
  { destruct (h !! "hits"); [reflexivity | discriminate]. }
  apply (format_results_with_hits py_repr r (JObj h) _ _ Hr) in Hout
    as (lines & Hl & ->).
  destruct (format_lines_shape py_repr _ _ _ Hl) as (hs & _ & _ & _ & Hhs & _).
  assert (Hne : hs <> []).
  { cbn [get bind] in Hhs. rewrite Hsame in Hhs.
    by apply (iter_truthy _ _ Hhs). }
  rewrite (response_hits_some r (JObj h) hs Hr Hhs).
  split; [exact Hne|].
  destruct (format_lines_entries py_repr _ _ _ _ Hl Hhs)
    as (entries & Hlines & Hlen & Hcount & _).
  exists r, (JObj h), lines, entries.
  split; [reflexivity|]. split; [exact Hr|]. split; [exact Hl|].
  split; [reflexivity|]. split; [exact Hlines|]. split; [exact Hlen|].
  split; [exact Hcount|].
  rewrite Hlen. destruct hs; [done | cbn [length]; lia].
Qed.

Lemma main_shows_between_one_and_five_entries_witness :
  exists printed lines entries,
    main (answering ascending_response) id no_repr one_query
    = Shown printed (Some ascending_response)
    /\ printed = Text (join nl lines)
    /\ lines
       = ["The following workflows were found in Dockstore:" +:+ nl;
          "Found 7 workflows, showing top 5 by relevance:" +:+ nl]
         ++ concat entries
    /\ length entries = 5.
Proof.
  eexists.
  destruct (main_shows_between_one_and_five_entries
              (answering ascending_response) id no_repr one_query
              _ (Some ascending_response) ltac:(vm_compute; reflexivity))
    as (_ & _ & r & hits & lines & entries & _ & _ & _ & Hout & Hlines
        & Hlen & _).
  exists lines, entries. split; [vm_compute; reflexivity|].
  split; [exact Hout|]. split; [exact Hlines | exact Hlen].
Defined.

(** End to end: when the gateway answers 200 with a response of the
    index's shape that has at least one hit, [main] prints what the
    formatter gives on that response and saves the response unchanged. *)
Theorem main_shows_formatted_response
    (upper : string -> string) (py_repr : json -> string)
    (args : arguments) q qs (r h : gmap string json) hit hits :
  query args = Some (q :: qs) ->
  r !! "hits" = Some (JObj h) ->
  h !! "hits" = Some (JArr (hit :: hits)) ->
  forallb plain_hit (hit :: hits) = true ->
  exists printed,
    format_results py_repr (Some r) (outputfull args) = Ok printed
    /\ main (answering r) upper py_repr args = Shown printed (Some r).
Proof.
  intros Hq Hr Hh Hplain.
  destruct (format_results_total py_repr r h (hit :: hits) (outputfull args)
              Hr ltac:(by rewrite Hh) Hplain) as (printed & Hprinted).
  exists printed. split; [exact Hprinted|].
  unfold main. destruct (cli_queries_cons upper args q qs Hq) as (c & cs & ->).
  unfold search, answering. rewrite build_body. cbn [Z.eqb Pos.eqb negb].
  unfold nothing_found.
  assert (Hne : negb (truthy (JObj r)) = false).
  { cbn [truthy]. rewrite negb_involutive. apply bool_decide_eq_false.
    intros ->. by rewrite lookup_empty in Hr. }
  rewrite Hne, Hr. cbn [get bind]. rewrite Hh.
  cbn [default from_option id truthy negb]. by rewrite Hprinted.
Qed.

Lemma main_shows_formatted_response_witness :
  exists printed,
    format_results no_repr (Some ascending_response) false = Ok printed
    /\ main (answering ascending_response) id no_repr one_query
       = Shown printed (Some ascending_response).
Proof.
  eapply (main_shows_formatted_response id no_repr one_query
            ("RNA-seq", "description", "and") [] ascending_response);
    reflexivity.
Defined.

End ClientFacts.
